(** * Expense-Tracker: the persistent store, embedded in Rocq

    A shallow embedding of the storage core of the Expense-Tracker
    application:

    - [expense_tracker/models/transaction.py], [category.py], [enums.py]
    - [expense_tracker/repositories/json_repository.py]
    - [expense_tracker/services/category_service.py] (category deletion)
    - [expense_tracker/utils/data_manager.py] (schema migration)
    - [expense_tracker/utils/error_handling.py] (backup retention)

    Python values stored in the document are JSON values; dictionaries are
    association lists in insertion order, as Python keeps them.  Code that
    can raise returns a [res]; code that reads the clock, draws random bytes
    or touches the file system runs in a small state-and-exception monad
    over [state].  The parsers of the standard library, the clock and the
    file system are the fields of a [runtime]. *)

From stdpp Require Import base option list strings gmap.
From Stdlib Require Import ZArith NArith Lia.
From Stdlib Require Import Ascii.
From Stdlib Require Import Sorted.

Open Scope string_scope.
Open Scope list_scope.
Open Scope Z_scope.

Abbreviation list_ascii_of_string := String.list_ascii_of_string.
Abbreviation string_of_list_ascii := String.string_of_list_ascii.

(** ** Exceptions and results *)

(** The exception classes the modelled code raises or selects on.
    [json.JSONDecodeError] and [UnicodeDecodeError] are [ValueError]s and
    [IOError] is [OSError]; [decimal.InvalidOperation] is an
    [ArithmeticError]. *)
Inductive exn : Type :=
| OSError
| ValueError
| KeyError
| IndexError
| TypeError
| AttributeError
| InvalidOperation.

Inductive res (A : Type) : Type :=
| Ok (a : A)
| Raise (e : exn).
Arguments Ok {A} a.
Arguments Raise {A} e.

Definition res_bind {A B} (r : res A) (f : A -> res B) : res B :=
  match r with
  | Ok a => f a
  | Raise e => Raise e
  end.

Declare Scope res_scope.
Delimit Scope res_scope with res.
Notation "'let?' x ':=' r 'in' k" := (res_bind r (fun x => k))
  (at level 10, x pattern, r at level 100, k at level 200) : res_scope.
Open Scope res_scope.

Definition is_Ok {A} (r : res A) : bool :=
  match r with Ok _ => true | Raise _ => false end.

(** ** JSON values: what [json.load] returns and [json.dump] accepts

    Floats are left out: the store writes amounts as strings and no
    modelled code computes with a float. *)
#[warnings="-register-all"]
Inductive json : Type :=
| JNull
| JBool (b : bool)
| JInt (n : Z)
| JStr (s : string)
| JList (l : list json)
| JDict (d : list (string * json)).

(** A Python dict with string keys: keys are unique and kept in
    insertion order. *)
Abbreviation dict := (list (string * json)).

Fixpoint dict_get (k : string) (d : dict) : option json :=
  match d with
  | [] => None
  | (k', v) :: d' => if String.eqb k' k then Some v else dict_get k d'
  end.

(** [d[k] = v]: overwrite in place, or add at the end. *)
Fixpoint dict_set (k : string) (v : json) (d : dict) : dict :=
  match d with
  | [] => [(k, v)]
  | (k', v') :: d' =>
      if String.eqb k' k then (k', v) :: d' else (k', v') :: dict_set k v d'
  end.

Definition dict_has (k : string) (d : dict) : bool :=
  match dict_get k d with Some _ => true | None => false end.

(** [d.get(k, default)] *)
Definition dict_get_default (k : string) (default : json) (d : dict) : json :=
  match dict_get k d with Some v => v | None => default end.

(** [d.get(k)] *)
Definition dict_get_none (k : string) (d : dict) : json :=
  dict_get_default k JNull d.

(** [d[k]] *)
Definition dict_getitem (k : string) (d : dict) : res json :=
  match dict_get k d with Some v => Ok v | None => Raise KeyError end.

(** Truth value of a JSON value in a condition. *)
Definition truthy (v : json) : bool :=
  match v with
  | JNull => false
  | JBool b => b
  | JInt n => negb (n =? 0)
  | JStr s => negb (String.eqb s "")
  | JList l => match l with [] => false | _ => true end
  | JDict d => match d with [] => false | _ => true end
  end.

(** [v == s] for a string [s]: only an equal string is equal to it. *)
Definition eq_str (v : json) (s : string) : bool :=
  match v with
  | JStr s' => String.eqb s' s
  | _ => false
  end.

(** [a == b] on JSON values: a bool is the int 0 or 1, lists are equal
    element by element, dicts when they hold equal values under the same
    keys, in any order. *)
Fixpoint py_eq (a b : json) : bool :=
  match a, b with
  | JNull, JNull => true
  | JBool x, JBool y => Bool.eqb x y
  | JBool x, JInt n | JInt n, JBool x => n =? (if x then 1 else 0)
  | JInt m, JInt n => m =? n
  | JStr s, JStr s' => String.eqb s s'
  | JList l, JList l' =>
      (fix all2 (l : list json) (l' : list json) : bool :=
         match l, l' with
         | [], [] => true
         | x :: l, y :: l' => py_eq x y && all2 l l'
         | _, _ => false
         end) l l'
  | JDict d, JDict d' =>
      (length d =? length d')%nat &&
      (fix all_in (d : list (string * json)) : bool :=
         match d with
         | [] => true
         | (k, v) :: d =>
             match dict_get k d' with
             | Some v' => py_eq v v'
             | None => false
             end && all_in d
         end) d
  | _, _ => false
  end.

(** [needle in haystack] on strings: substring test. *)
Fixpoint is_prefix (p s : string) : bool :=
  match p, s with
  | EmptyString, _ => true
  | String a p', String b s' => Ascii.eqb a b && is_prefix p' s'
  | String _ _, EmptyString => false
  end.

Fixpoint is_substring (p s : string) : bool :=
  is_prefix p s ||
  match s with
  | EmptyString => false
  | String _ s' => is_substring p s'
  end.

(** The characters of a string, each as a one-character string. *)
Fixpoint chars (s : string) : list json :=
  match s with
  | EmptyString => []
  | String a s' => JStr (String a EmptyString) :: chars s'
  end.

(** Operations on a value whose type the code does not check first. *)

(** [v.get(k, default)]: only a dict has [get]. *)
Definition py_get (v : json) (k : string) (default : json) : res json :=
  match v with
  | JDict d => Ok (dict_get_default k default d)
  | _ => Raise AttributeError
  end.

(** [k in v] *)
Definition py_contains (k : string) (v : json) : res bool :=
  match v with
  | JDict d => Ok (dict_has k d)
  | JList l => Ok (existsb (fun x => eq_str x k) l)
  | JStr s => Ok (is_substring k s)
  | _ => Raise TypeError
  end.

(** [v[k] = x] for a string key: only a dict accepts it. *)
Definition py_setitem (v : json) (k : string) (x : json) : res json :=
  match v with
  | JDict d => Ok (JDict (dict_set k x d))
  | _ => Raise TypeError
  end.

(** [for x in v]: the elements, the keys, or the characters. *)
Definition py_iter (v : json) : res (list json) :=
  match v with
  | JList l => Ok l
  | JDict d => Ok (map (fun kv => JStr (fst kv)) d)
  | JStr s => Ok (chars s)
  | _ => Raise TypeError
  end.

(** [v[k]] for a string key: a dict looks the key up, nothing else
    accepts a string as a subscript. *)
Definition py_getitem (v : json) (k : string) : res json :=
  match v with
  | JDict d => dict_getitem k d
  | _ => Raise TypeError
  end.

(** [v[i] = x] for an index [i] the code found by enumerating [v]. *)
Definition list_setitem (v : json) (i : nat) (x : json) : res json :=
  match v with
  | JList l =>
      if (i <? length l)%nat then Ok (JList (<[i:=x]> l)) else Raise IndexError
  | _ => Raise TypeError
  end.

(** [v.append(x)]: only a list has [append]. *)
Definition list_append (v : json) (x : json) : res json :=
  match v with
  | JList l => Ok (JList (l ++ [x]))
  | _ => Raise AttributeError
  end.

(** The list behind [v.append], looked up before the argument of the
    call is evaluated. *)
Definition list_append_check (v : json) : res (list json) :=
  match v with
  | JList l => Ok l
  | _ => Raise AttributeError
  end.

(** The first index at which [p] holds, as a loop with [break] finds it;
    [p] may raise on an element it meets before a match. *)
Fixpoint find_index (p : json -> res bool) (l : list json) (i : nat)
  : res (option nat) :=
  match l with
  | [] => Ok None
  | x :: l' =>
      let? b := p x in
      if b then Ok (Some i) else find_index p l' (S i)
  end.

(** The first element at which [p] holds, as a loop that returns from
    inside finds it. *)
Fixpoint find_record (p : json -> res bool) (l : list json)
  : res (option json) :=
  match l with
  | [] => Ok None
  | x :: l' =>
      let? b := p x in
      if b then Ok (Some x) else find_record p l'
  end.

(** [[x for x in l if p(x)]] *)
Fixpoint filter_res (p : json -> res bool) (l : list json) : res (list json) :=
  match l with
  | [] => Ok []
  | x :: l' =>
      let? b := p x in
      let? r := filter_res p l' in
      Ok (if b then x :: r else r)
  end.

(** [len(v)] *)
Definition py_len (v : json) : res Z :=
  match v with
  | JList l => Ok (Z.of_nat (length l))
  | JDict d => Ok (Z.of_nat (length d))
  | JStr s => Ok (Z.of_nat (String.length s))
  | _ => Raise TypeError
  end.

(** ** [list.sort(key=..., reverse=True)]

    A stable sort, largest key first: elements with equal keys keep the
    order they had. *)
Fixpoint insert_desc {A} (key : A -> Z) (x : A) (l : list A) : list A :=
  match l with
  | [] => [x]
  | y :: l' => if key x <? key y then y :: insert_desc key x l' else x :: l
  end.

Definition sort_desc {A} (key : A -> Z) (l : list A) : list A :=
  fold_right (insert_desc key) [] l.

(** ** Decimal digits: [str(n)] and [%0wd]

    Text is handled as [list ascii]; [string_of_list_ascii] and
    [list_ascii_of_string] convert at the boundary. *)

Definition digit_char (d : N) : ascii := ascii_of_N (48 + d).

Fixpoint digits_fuel (fuel : nat) (n : N) (acc : list ascii) : list ascii :=
  match fuel with
  | O => acc
  | S fuel' =>
      let acc' := digit_char (n mod 10) :: acc in
      if (n / 10 =? 0)%N then acc' else digits_fuel fuel' (n / 10) acc'
  end.

(** [str(n)] for [n >= 0]; a number has at most [log2 n + 1] digits. *)
Definition digits_of_N (n : N) : list ascii :=
  digits_fuel (S (N.to_nat (N.log2 n))) n [].

(** [str(z)] *)
Definition str_of_Z (z : Z) : list ascii :=
  if z <? 0 then "-"%char :: digits_of_N (Z.abs_N z)
  else digits_of_N (Z.abs_N z).

(** ["%+d" % z] *)
Definition fmt_plus_d (z : Z) : list ascii :=
  (if z <? 0 then "-"%char else "+"%char) :: digits_of_N (Z.abs_N z).

(** ["%0wd" % n]: zero-padded on the left to at least [w] digits. *)
Definition zfill (w : nat) (n : N) : list ascii :=
  let ds := digits_of_N n in
  repeat "0"%char (w - length ds) ++ ds.

(** Lower-case hexadecimal, ["%0wx" % n] for [n < 16^w]. *)
Definition hex_char (d : N) : ascii :=
  if (d <? 10)%N then ascii_of_N (48 + d) else ascii_of_N (87 + d).

Fixpoint hex_fixed (w : nat) (n : N) : list ascii :=
  match w with
  | O => []
  | S w' => hex_fixed w' (n / 16) ++ [hex_char (n mod 16)]
  end.

(** ** [decimal.Decimal]

    A finite decimal is sign, coefficient and exponent
    ([(-1)^sign * coeff * 10^exp]); the coefficient carries no leading
    zeros, so it is a number.  Infinities and NaNs are the special
    values. *)
Inductive Decimal : Type :=
| DFin (neg : bool) (coeff : N) (exp : Z)
| DInf (neg : bool)
| DNaN (neg : bool) (signaling : bool) (payload : N).

Definition sign_str (neg : bool) : list ascii :=
  if neg then ["-"%char] else [].

(** [Decimal.__str__] (in the default context, which writes a capital
    [E]): plain notation while the exponent is at most zero and the
    number has fewer than six leading fractional zeros, scientific
    notation with one digit before the point otherwise. *)
Definition Decimal_str (d : Decimal) : list ascii :=
  match d with
  | DInf neg => sign_str neg ++ list_ascii_of_string "Infinity"
  | DNaN neg sig p =>
      sign_str neg ++ list_ascii_of_string (if sig then "sNaN" else "NaN")
      ++ (if (p =? 0)%N then [] else digits_of_N p)
  | DFin neg c e =>
      let ds := digits_of_N c in
      let len := Z.of_nat (length ds) in
      let leftdigits := e + len in
      let dotplace :=
        if (e <=? 0) && (-6 <? leftdigits) then leftdigits else 1 in
      let intpart :=
        if dotplace <=? 0 then ["0"%char]
        else if len <=? dotplace
             then ds ++ repeat "0"%char (Z.to_nat (dotplace - len))
             else firstn (Z.to_nat dotplace) ds in
      let fracpart :=
        if dotplace <=? 0
        then "."%char :: repeat "0"%char (Z.to_nat (- dotplace)) ++ ds
        else if len <=? dotplace then []
             else "."%char :: skipn (Z.to_nat dotplace) ds in
      let exppart :=
        if leftdigits =? dotplace then []
        else "E"%char :: fmt_plus_d (leftdigits - dotplace) in
      sign_str neg ++ intpart ++ fracpart ++ exppart
  end.

(** [d <= 0]: an ordering comparison with a NaN signals
    [InvalidOperation], which the default context raises. *)
Definition Decimal_le_zero (d : Decimal) : res bool :=
  match d with
  | DFin neg c _ => Ok (neg || (c =? 0)%N)
  | DInf neg => Ok neg
  | DNaN _ _ _ => Raise InvalidOperation
  end.

(** ** [datetime.datetime]

    The fields of the local time and, for an aware datetime, its offset
    from UTC in microseconds ([tzinfo=timezone(offset)], as
    [fromisoformat] attaches it).  A naive datetime, as [datetime.now()]
    and [datetime.fromtimestamp(t)] create it, has no offset.  A datetime
    object always satisfies [datetime_ok]. *)
Record datetime : Type := mk_datetime {
  dt_year : N;
  dt_month : N;
  dt_day : N;
  dt_hour : N;
  dt_minute : N;
  dt_second : N;
  dt_microsecond : N;
  dt_utcoffset : option Z
}.

Definition is_leap (y : N) : bool :=
  ((y mod 4 =? 0) && (negb (y mod 100 =? 0) || (y mod 400 =? 0)))%N.

Definition days_in_month (y m : N) : N :=
  (if (m =? 2) then (if is_leap y then 29 else 28)
   else if (m =? 4) || (m =? 6) || (m =? 9) || (m =? 11) then 30
   else 31)%N.

(** One day, in microseconds: an offset lies strictly between minus and
    plus one day. *)
Definition day_us : Z := 86400000000.

Definition datetime_ok (d : datetime) : bool :=
  ((1 <=? dt_year d) && (dt_year d <=? 9999) &&
   (1 <=? dt_month d) && (dt_month d <=? 12) &&
   (1 <=? dt_day d) && (dt_day d <=? days_in_month (dt_year d) (dt_month d)) &&
   (dt_hour d <? 24) && (dt_minute d <? 60) && (dt_second d <? 60) &&
   (dt_microsecond d <? 1000000))%N &&
  match dt_utcoffset d with
  | None => true
  | Some off => (- day_us <? off) && (off <? day_us)
  end.

Definition is_aware (d : datetime) : bool :=
  match dt_utcoffset d with Some _ => true | None => false end.

(** The same local time without an offset. *)
Definition naive (d : datetime) : datetime :=
  {| dt_year := dt_year d; dt_month := dt_month d; dt_day := dt_day d;
     dt_hour := dt_hour d; dt_minute := dt_minute d;
     dt_second := dt_second d; dt_microsecond := dt_microsecond d;
     dt_utcoffset := None |}.

(** The offset as [isoformat] writes it: [+HH:MM], with [:SS] when the
    offset has seconds or microseconds and [.ffffff] when it has
    microseconds. *)
Definition format_offset (off : option Z) : list ascii :=
  match off with
  | None => []
  | Some off =>
      let a := Z.abs_N off in
      let hh := (a / 3600000000)%N in
      let mm := ((a / 60000000) mod 60)%N in
      let ss := ((a / 1000000) mod 60)%N in
      let us := (a mod 1000000)%N in
      (if off <? 0 then "-"%char else "+"%char) ::
      zfill 2 hh ++ ":"%char :: zfill 2 mm ++
      (if (ss =? 0)%N && (us =? 0)%N then []
       else ":"%char :: zfill 2 ss ++
            (if (us =? 0)%N then [] else "."%char :: zfill 6 us))
  end.

(** [d.isoformat()]: [YYYY-MM-DDTHH:MM:SS], with [.ffffff] when the
    microsecond is not zero, then the offset of an aware datetime. *)
Definition isoformat (d : datetime) : string :=
  string_of_list_ascii
    (zfill 4 (dt_year d) ++ "-"%char :: zfill 2 (dt_month d) ++
     "-"%char :: zfill 2 (dt_day d) ++ "T"%char :: zfill 2 (dt_hour d) ++
     ":"%char :: zfill 2 (dt_minute d) ++ ":"%char :: zfill 2 (dt_second d) ++
     (if (dt_microsecond d =? 0)%N then []
      else "."%char :: zfill 6 (dt_microsecond d)) ++
     format_offset (dt_utcoffset d)).

(** [d.toordinal()]: the number of the day, day 1 being 1 January of
    year 1. *)
Definition days_before_year (y : N) : Z :=
  let y1 := Z.of_N y - 1 in
  y1 * 365 + y1 / 4 - y1 / 100 + y1 / 400.

Definition days_before_month (y m : N) : Z :=
  fold_right (fun k a => Z.of_N (days_in_month y (N.of_nat k)) + a) 0
    (seq 1 (N.to_nat m - 1)).

Definition toordinal (d : datetime) : Z :=
  days_before_year (dt_year d) + days_before_month (dt_year d) (dt_month d)
  + Z.of_N (dt_day d).

(** The place of a datetime in time, in microseconds: the local time,
    less the offset of an aware datetime.  Two naive datetimes, and two
    aware ones, are ordered as these numbers are; a naive and an aware
    datetime do not compare ([TypeError]). *)
Definition datetime_key (d : datetime) : Z :=
  (((toordinal d * 24 + Z.of_N (dt_hour d)) * 60 + Z.of_N (dt_minute d)) * 60
   + Z.of_N (dt_second d)) * 1000000 + Z.of_N (dt_microsecond d)
  - default 0 (dt_utcoffset d).

(** [l.sort(key=..., reverse=True)] on datetime keys: a stable sort,
    newest first.  A naive and an aware datetime do not compare, and a
    sort of two or more elements compares every element with another, so
    it raises [TypeError] exactly when keys of both kinds are there. *)
Definition sort_by_datetime {A} (key : A -> datetime) (l : list A)
  : res (list A) :=
  if existsb (fun x => is_aware (key x)) l &&
     existsb (fun x => negb (is_aware (key x))) l
  then Raise TypeError
  else Ok (sort_desc (fun x => datetime_key (key x)) l).

(** ** [uuid.uuid4]

    [UUID(bytes=os.urandom(16), version=4)]: the variant and version bits
    are forced, and [str] writes 32 hexadecimal digits in five groups. *)
Definition uuid4_int (random : N) : N :=
  let i := (random mod 2 ^ 128)%N in
  let i := N.ldiff i (N.shiftl 49152 48) in
  let i := N.lor i (N.shiftl 32768 48) in
  let i := N.ldiff i (N.shiftl 61440 64) in
  N.lor i (N.shiftl 4 76).

Definition uuid_str (i : N) : string :=
  let hex := hex_fixed 32 i in
  string_of_list_ascii
    (firstn 8 hex ++ "-"%char :: firstn 4 (skipn 8 hex) ++
     "-"%char :: firstn 4 (skipn 12 hex) ++
     "-"%char :: firstn 4 (skipn 16 hex) ++ "-"%char :: skipn 20 hex).

(** ** Text helpers: [str.strip] and truth of a string

    A character is a code point below 256; the white space [strip]
    removes is what [str.isspace] accepts there. *)
Definition is_space (c : ascii) : bool :=
  let n := N_of_ascii c in
  ((9 <=? n) && (n <=? 13) || (28 <=? n) && (n <=? 32) ||
   (n =? 133) || (n =? 160))%N.

Fixpoint lstrip (l : list ascii) : list ascii :=
  match l with
  | c :: l' => if is_space c then lstrip l' else l
  | [] => []
  end.

Definition strip (s : string) : string :=
  string_of_list_ascii
    (rev (lstrip (rev (lstrip (list_ascii_of_string s))))).

Definition nonempty (s : string) : bool := negb (String.eqb s "").

(** ** A field whose Python type the code checks at run time

    [Is a] is an instance of the expected class; [Other v] is any other
    object, here one of [None], a bool, an int or a str. *)
Inductive scalar : Type :=
| SNone
| SBool (b : bool)
| SInt (n : Z)
| SStr (s : string).

Inductive dyn (A : Type) : Type :=
| Is (a : A)
| Other (v : scalar).
Arguments Is {A} a.
Arguments Other {A} v.

Definition scalar_truthy (v : scalar) : bool :=
  match v with
  | SNone => false
  | SBool b => b
  | SInt n => negb (n =? 0)
  | SStr s => nonempty s
  end.

(** [str(v)] *)
Definition scalar_str (v : scalar) : string :=
  match v with
  | SNone => "None"
  | SBool true => "True"
  | SBool false => "False"
  | SInt n => string_of_list_ascii (str_of_Z n)
  | SStr s => s
  end.

(** ** [models/enums.py] *)
Module TransactionType.
Inductive t : Type := INCOME | EXPENSE.

Definition value (x : t) : string :=
  match x with INCOME => "INCOME" | EXPENSE => "EXPENSE" end.

(** [TransactionType(v)]: the member with that value, or [ValueError]. *)
Definition of_value (v : json) : res t :=
  if eq_str v "INCOME" then Ok INCOME
  else if eq_str v "EXPENSE" then Ok EXPENSE
  else Raise ValueError.
End TransactionType.

Module CategoryType.
Inductive t : Type := INCOME | EXPENSE.

Definition value (x : t) : string :=
  match x with INCOME => "INCOME" | EXPENSE => "EXPENSE" end.

Definition of_value (v : json) : res t :=
  if eq_str v "INCOME" then Ok INCOME
  else if eq_str v "EXPENSE" then Ok EXPENSE
  else Raise ValueError.
End CategoryType.

(** ** What the modelled code takes from outside

    The clock and the random source; the functions of the standard
    library that read or write a text format (the [Decimal] constructor,
    [datetime.fromisoformat], [json.load], [json.dump]) or depend on the
    platform ([strftime], the local time of a file time); and the faults
    of the file system.  Nothing is assumed of them: a property that
    needs a fact about one of them states it. *)
Abbreviation path := (list string).

Record runtime : Type := {
  (** [datetime.now()], by the number of earlier reads (the value is
      used without its offset: [now()] is naive) *)
  clock : nat -> datetime;
  (** [os.urandom(16)] as an integer, by the number of earlier draws *)
  urandom : nat -> N;
  (** [Decimal(v)] for a JSON value [v] *)
  Decimal_of : json -> res Decimal;
  (** [datetime.fromisoformat(v)] for a JSON value [v] *)
  fromisoformat : json -> res datetime;
  (** [d.strftime('%Y%m%d_%H%M%S')] *)
  strftime_stamp : datetime -> string;
  (** [datetime.fromtimestamp(t)] for a file time [t] (used without its
      offset, as for [now()]) *)
  fromtimestamp : Z -> datetime;
  (** the chunks [json.dump(_, f, indent=2, ensure_ascii=False)] writes *)
  iterencode : json -> list string;
  (** [json.load] on the contents of a file *)
  loads : string -> res json;
  (** the paths on which creating, replacing or removing a file raises
      [OSError] *)
  write_fails : path -> bool
}.

(** [json.dumps]: the chunks, joined. *)
Definition dumps (E : runtime) (v : json) : string :=
  fold_right String.append "" (iterencode E v).

(** ** The state the code runs in

    [_data] is the repository's in-memory document ([self._data], [None]
    before loading); [files] is the file system, a map from paths (lists
    of components) to contents. *)
Record state : Type := {
  _data : json;
  files : gmap path string;
  clock_reads : nat;
  random_draws : nat
}.

Definition set_data (v : json) (s : state) : state :=
  {| _data := v; files := files s;
     clock_reads := clock_reads s; random_draws := random_draws s |}.

Definition set_files (f : gmap path string) (s : state) : state :=
  {| _data := _data s; files := f;
     clock_reads := clock_reads s; random_draws := random_draws s |}.

(** A computation: a result or an exception, and the state left behind
    (what was changed before an exception stays changed). *)
Definition M (A : Type) : Type := state -> res A * state.

Definition ret {A} (a : A) : M A := fun s => (Ok a, s).

Definition raise {A} (e : exn) : M A := fun s => (Raise e, s).

Definition bind {A B} (m : M A) (f : A -> M B) : M B :=
  fun s =>
    match m s with
    | (Ok a, s') => f a s'
    | (Raise e, s') => (Raise e, s')
    end.

Definition lift {A} (r : res A) : M A := fun s => (r, s).

(** [try: m  except <classes>: h], where [handles e] tells whether the
    clause catches [e]. *)
Definition try_except {A} (m : M A) (handles : exn -> bool) (h : exn -> M A)
  : M A :=
  fun s =>
    match m s with
    | (Ok a, s') => (Ok a, s')
    | (Raise e, s') => if handles e then h e s' else (Raise e, s')
    end.

Declare Scope M_scope.
Delimit Scope M_scope with M.
Notation "'let*' x ':=' m 'in' k" := (bind m (fun x => k))
  (at level 10, x pattern, m at level 100, k at level 200) : M_scope.
Open Scope M_scope.

(** [except Exception] *)
Definition any_exception (e : exn) : bool := true.

(** [except IOError], [except OSError] *)
Definition is_OSError (e : exn) : bool :=
  match e with OSError => true | _ => false end.

(** [except (json.JSONDecodeError, ValueError, IOError)] *)
Definition is_decode_value_or_io (e : exn) : bool :=
  match e with OSError | ValueError => true | _ => false end.

Definition get_data : M json := fun s => (Ok (_data s), s).

Definition put_data (v : json) : M unit := fun s => (Ok tt, set_data v s).

(** [datetime.now()] *)
Definition now (E : runtime) : M datetime :=
  fun s =>
    (Ok (naive (clock E (clock_reads s))),
     {| _data := _data s; files := files s;
        clock_reads := S (clock_reads s); random_draws := random_draws s |}).

(** [str(uuid.uuid4())] *)
Definition uuid4_str (E : runtime) : M string :=
  fun s =>
    (Ok (uuid_str (uuid4_int (urandom E (random_draws s)))),
     {| _data := _data s; files := files s;
        clock_reads := clock_reads s; random_draws := S (random_draws s) |}).

(** [not v or not v.strip()]: a value that counts as false is blank
    without being asked; of the others only a str has [strip]. *)
Definition is_blank (v : json) : res bool :=
  if negb (truthy v) then Ok true
  else match v with
       | JStr s => Ok (negb (nonempty (strip s)))
       | _ => Raise AttributeError
       end.

(** [len(v.strip())] *)
Definition stripped_length (v : json) : res nat :=
  match v with
  | JStr s => Ok (String.length (strip s))
  | _ => Raise AttributeError
  end.

(** ** [models/transaction.py] *)
Module Transaction.

(** An instance of the dataclass.  Nothing checks the annotations:
    [description], [category] and [id] hold what the caller or [from_dict]
    put there, a JSON value; [amount], [transaction_type] and [date],
    which [validate] tests with [isinstance], hold an instance of the
    class or another object; [created_at] is a datetime or [None]. *)
Record t : Type := {
  amount : dyn Decimal;
  description : json;
  category : json;
  transaction_type : dyn TransactionType.t;
  date : dyn datetime;
  id : json;
  created_at : option datetime
}.

(** The constructor with [__post_init__]: an identifier that is [None]
    is drawn from [uuid4], a date or creation time that is [None] is read
    from the clock, in this order. *)
Definition init (E : runtime) (amount : dyn Decimal)
    (description category : json)
    (transaction_type : dyn TransactionType.t) (date : dyn datetime)
    (id : json) (created_at : option datetime) : M t :=
  let* id := match id with
             | JNull => let* i := uuid4_str E in ret (JStr i)
             | _ => ret id
             end in
  let* date := match date with
               | Other SNone => let* n := now E in ret (Is n)
               | _ => ret date
               end in
  let* created_at := match created_at with
                     | None => let* n := now E in ret (Some n)
                     | Some _ => ret created_at
                     end in
  ret {| amount := amount; description := description;
         category := category; transaction_type := transaction_type;
         date := date; id := id; created_at := created_at |}.

(** The five checks of [validate], each with the errors it appends. *)
Definition check_amount (amount : dyn Decimal) : res (list string) :=
  match amount with
  | Other _ => Ok ["Amount must be a Decimal"]
  | Is d =>
      let? le := Decimal_le_zero d in
      Ok (if le then ["Amount must be greater than zero"] else [])
  end.

Definition check_description (description : json) : res (list string) :=
  let? blank := is_blank description in
  if blank then Ok ["Description is required"]
  else
    let? n := stripped_length description in
    Ok (if (200 <? n)%nat
        then ["Description must be 200 characters or less"]
        else []).

Definition check_category (category : json) : res (list string) :=
  let? blank := is_blank category in
  Ok (if blank then ["Category is required"] else []).

Definition check_type (transaction_type : dyn TransactionType.t)
  : list string :=
  match transaction_type with
  | Is _ => []
  | Other _ => ["Transaction type must be INCOME or EXPENSE"]
  end.

Definition check_date (date : dyn datetime) : list string :=
  match date with
  | Is _ => []
  | Other v =>
      if scalar_truthy v then ["Date must be a datetime object"] else []
  end.

Definition validate (x : t) : res (list string) :=
  let? e_amount := check_amount (amount x) in
  let? e_description := check_description (description x) in
  let? e_category := check_category (category x) in
  Ok (e_amount ++ e_description ++ e_category
      ++ check_type (transaction_type x) ++ check_date (date x)).

Definition is_valid (x : t) : res bool :=
  let? errors := validate x in
  Ok (length errors =? 0)%nat.

(** [d.isoformat() if d else None]: a datetime counts as true; of the
    other objects the ones that count as true have no [isoformat]. *)
Definition isoformat_or_none (d : dyn datetime) : res json :=
  match d with
  | Is d => Ok (JStr (isoformat d))
  | Other v => if scalar_truthy v then Raise AttributeError else Ok JNull
  end.

Definition to_dict (x : t) : res dict :=
  let amount_str :=
    match amount x with
    | Is d => string_of_list_ascii (Decimal_str d)
    | Other v => scalar_str v
    end in
  let? date_value := isoformat_or_none (date x) in
  let? type_value :=
    match transaction_type x with
    | Is ty => Ok (JStr (TransactionType.value ty))
    | Other _ => Raise AttributeError
    end in
  let created_value :=
    match created_at x with
    | Some c => JStr (isoformat c)
    | None => JNull
    end in
  Ok [("id", id x);
      ("amount", JStr amount_str);
      ("description", description x);
      ("category", category x);
      ("date", date_value);
      ("transaction_type", type_value);
      ("created_at", created_value)].

(** The arguments [from_dict] passes to the constructor, evaluated in
    the order they are written. *)
Record init_args : Type := {
  arg_id : json;
  arg_amount : Decimal;
  arg_description : json;
  arg_category : json;
  arg_date : option datetime;
  arg_transaction_type : TransactionType.t;
  arg_created_at : option datetime
}.

(** [datetime.fromisoformat(data[k]) if data.get(k) else None] *)
Definition optional_datetime (E : runtime) (k : string) (data : dict)
  : res (option datetime) :=
  if truthy (dict_get_none k data)
  then let? v := dict_getitem k data in
       let? d := fromisoformat E v in
       Ok (Some d)
  else Ok None.

Definition from_dict_args (E : runtime) (data : dict) : res init_args :=
  let id := dict_get_none "id" data in
  let? amount := (let? v := dict_getitem "amount" data in Decimal_of E v) in
  let? description := dict_getitem "description" data in
  let? category := dict_getitem "category" data in
  let? date := optional_datetime E "date" data in
  let? transaction_type :=
    (let? v := dict_getitem "transaction_type" data in
     TransactionType.of_value v) in
  let? created_at := optional_datetime E "created_at" data in
  Ok {| arg_id := id; arg_amount := amount; arg_description := description;
        arg_category := category; arg_date := date;
        arg_transaction_type := transaction_type;
        arg_created_at := created_at |}.

(** An optional argument: [None] when it is not given. *)
Definition optional {A} (o : option A) : dyn A :=
  match o with Some a => Is a | None => Other SNone end.

Definition from_dict (E : runtime) (data : dict) : M t :=
  let* a := lift (from_dict_args E data) in
  init E (Is (arg_amount a)) (arg_description a) (arg_category a)
    (Is (arg_transaction_type a)) (optional (arg_date a))
    (arg_id a) (arg_created_at a).

End Transaction.

(** ** [models/category.py] *)
Module Category.

(** An instance of the dataclass; [name] and [is_default] hold what the
    caller or [from_dict] put there. *)
Record t : Type := {
  name : json;
  category_type : dyn CategoryType.t;
  is_default : json
}.

Definition check_name (name : json) : res (list string) :=
  let? blank := is_blank name in
  if blank then Ok ["Category name is required"]
  else
    let? n := stripped_length name in
    Ok (if (50 <? n)%nat
        then ["Category name must be 50 characters or less"]
        else []).

Definition check_type (category_type : dyn CategoryType.t) : list string :=
  match category_type with
  | Is _ => []
  | Other _ => ["Category type must be INCOME or EXPENSE"]
  end.

Definition validate (x : t) : res (list string) :=
  let? e_name := check_name (name x) in
  Ok (e_name ++ check_type (category_type x)).

Definition is_valid (x : t) : res bool :=
  let? errors := validate x in
  Ok (length errors =? 0)%nat.

Definition to_dict (x : t) : res dict :=
  let? type_value :=
    match category_type x with
    | Is ty => Ok (JStr (CategoryType.value ty))
    | Other _ => Raise AttributeError
    end in
  Ok [("name", name x);
      ("category_type", type_value);
      ("is_default", is_default x)].

Definition from_dict (data : dict) : res t :=
  let? name := dict_getitem "name" data in
  let? category_type :=
    (let? v := dict_getitem "category_type" data in CategoryType.of_value v) in
  let is_default := dict_get_default "is_default" (JBool false) data in
  Ok {| name := name; category_type := Is category_type;
        is_default := is_default |}.

Definition default (n : string) (ty : CategoryType.t) : t :=
  {| name := JStr n; category_type := Is ty; is_default := JBool true |}.

Definition DEFAULT_CATEGORIES : list t :=
  [ default "Salary" CategoryType.INCOME;
    default "Freelance" CategoryType.INCOME;
    default "Investment" CategoryType.INCOME;
    default "Other Income" CategoryType.INCOME;
    default "Food" CategoryType.EXPENSE;
    default "Transportation" CategoryType.EXPENSE;
    default "Entertainment" CategoryType.EXPENSE;
    default "Utilities" CategoryType.EXPENSE;
    default "Healthcare" CategoryType.EXPENSE;
    default "Shopping" CategoryType.EXPENSE;
    default "Other Expense" CategoryType.EXPENSE ].

End Category.

(** ** Paths and files

    A path is a relative path, the list of its components; directories
    are not part of [files].  An operation that creates, replaces or
    removes the file at [p] raises [OSError] when [write_fails E p];
    opening a missing file raises [OSError] ([FileNotFoundError]). *)
Definition path_parent (p : path) : path := removelast p.

Definition path_name (p : path) : string := List.last p "".

(** [name.rfind('.')] *)
Fixpoint rfind_dot (l : list ascii) (i : nat) (found : option nat)
  : option nat :=
  match l with
  | [] => found
  | c :: l' => rfind_dot l' (S i) (if Ascii.eqb c "." then Some i else found)
  end.

(** [PurePath.suffix]: from the last dot on, unless that dot starts or
    ends the name. *)
Definition suffix_start (name : list ascii) : option nat :=
  match rfind_dot name 0%nat None with
  | Some i =>
      if (0 <? i)%nat && (Z.of_nat i <? Z.of_nat (length name) - 1)
      then Some i else None
  | None => None
  end.

(** A suffix is empty, or a dot followed by more, without a
    separator. *)
Definition valid_suffix (suffix : string) : bool :=
  negb (is_substring "/" suffix) &&
  (String.eqb suffix "" || is_prefix "." suffix) &&
  negb (String.eqb suffix ".").

(** [PurePath.with_suffix(suffix)]: an invalid suffix and an empty name
    are [ValueError]s. *)
Definition with_suffix (p : path) (suffix : string) : res path :=
  let name := list_ascii_of_string (path_name p) in
  if negb (valid_suffix suffix) then Raise ValueError else
  match name with
  | [] => Raise ValueError
  | _ :: _ =>
      let stem :=
        match suffix_start name with
        | Some i => firstn i name
        | None => name
        end in
      Ok (path_parent p ++
          [string_of_list_ascii (stem ++ list_ascii_of_string suffix)])
  end.

Section FileSystem.
Variable E : runtime.

Definition file_exists (p : path) : M bool :=
  fun s => (Ok (bool_decide (is_Some (files s !! p))), s).

(** [with open(p, 'r') as f: f.read()] *)
Definition read_text (p : path) : M string :=
  fun s =>
    match files s !! p with
    | Some c => (Ok c, s)
    | None => (Raise OSError, s)
    end.

(** [with open(p, 'w') as f: json.dump(v, f, ...)]: the file is created
    or truncated, then the chunks are written in order. *)
Definition write_json (p : path) (v : json) : M unit :=
  fun s =>
    if write_fails E p then (Raise OSError, s)
    else (Ok tt, set_files (<[p := dumps E v]> (files s)) s).

(** [src.replace(dst)], [os.rename] within one directory: one step that
    gives [dst] the contents of [src] and removes the name [src]. *)
Definition replace (src dst : path) : M unit :=
  fun s =>
    match files s !! src with
    | None => (Raise OSError, s)
    | Some c =>
        if write_fails E dst then (Raise OSError, s)
        else (Ok tt, set_files (<[dst := c]> (delete src (files s))) s)
    end.

(** [shutil.copy2(src, dst)] *)
Definition copy2 (src dst : path) : M unit :=
  fun s =>
    match files s !! src with
    | None => (Raise OSError, s)
    | Some c =>
        if write_fails E dst then (Raise OSError, s)
        else (Ok tt, set_files (<[dst := c]> (files s)) s)
    end.

(** [p.mkdir(..., exist_ok=True)] *)
Definition mkdir (p : path) : M unit :=
  fun s => if write_fails E p then (Raise OSError, s) else (Ok tt, s).

End FileSystem.

(** ** [repositories/json_repository.py] *)
Module JSONRepository.
Section Repository.
Variable E : runtime.
(** [self.data_file_path] *)
Variable data_file_path : path.

(** [self.backup_dir] *)
Definition backup_dir : path := path_parent data_file_path ++ ["backups"].

(** The empty envelope of [_load_data] and [_handle_data_corruption];
    the clock is read for [created_at], then for [last_modified]. *)
Definition empty_data : M json :=
  let* t1 := now E in
  let* t2 := now E in
  ret (JDict [("transactions", JList []);
              ("categories", JList []);
              ("metadata", JDict [("version", JStr "1.0");
                                  ("created_at", JStr (isoformat t1));
                                  ("last_modified", JStr (isoformat t2))])]).

(** [self._data['metadata']['last_modified'] = datetime.now().isoformat()]:
    the clock is read first, then the metadata dict is looked up and
    changed in place. *)
Definition stamp_last_modified : M unit :=
  let* t := now E in
  let* d := get_data in
  let* metadata := lift (py_getitem d "metadata") in
  let* metadata := lift (py_setitem metadata "last_modified"
                           (JStr (isoformat t))) in
  let* d := lift (py_setitem d "metadata" metadata) in
  put_data d.

Definition _save_data : M bool :=
  try_except
    (let* _ := stamp_last_modified in
     let* _ := mkdir E (path_parent data_file_path) in
     let* temp_file := lift (with_suffix data_file_path ".tmp") in
     let* d := get_data in
     let* _ := write_json E temp_file d in
     let* _ := replace E temp_file data_file_path in
     ret true)
    is_OSError
    (fun _ => ret false).

(** *** [_save_data], statement by statement

    The same function as a machine that runs one statement, or writes one
    chunk, per step.  A save interrupted after [n] steps leaves the state
    [run n] reaches. *)
Inductive point : Type :=
| Start
| Stamped
| DirReady
| Writing (temp_file : path) (pending : list string)
| Written (temp_file : path)
| Returned (r : res bool).

Inductive action : Type :=
| Stamp      (* set [last_modified] in the document in memory *)
| Mkdir      (* create the parent directory *)
| Open       (* open the temporary file for writing *)
| Write      (* write one chunk to it *)
| Close      (* close it *)
| Rename     (* [temp_file.replace(self.data_file_path)] *)
| Fail.      (* a statement raised *)

(** What an exception does to the call: [except IOError] returns
    [False], anything else leaves the function. *)
Definition on_exception (e : exn) : point :=
  if is_OSError e then Returned (Ok false) else Returned (Raise e).

(** [f.write(chunk)] on the open file at [p] *)
Definition append_file (p : path) (chunk : string) (s : state) : state :=
  set_files (<[p := default "" (files s !! p) +:+ chunk]> (files s)) s.

Definition step (pt : point) (s : state) : option (action * point * state) :=
  match pt with
  | Start =>
      match stamp_last_modified s with
      | (Ok _, s') => Some (Stamp, Stamped, s')
      | (Raise e, s') => Some (Fail, on_exception e, s')
      end
  | Stamped =>
      match mkdir E (path_parent data_file_path) s with
      | (Ok _, s') => Some (Mkdir, DirReady, s')
      | (Raise e, s') => Some (Fail, on_exception e, s')
      end
  | DirReady =>
      match with_suffix data_file_path ".tmp" with
      | Raise e => Some (Fail, on_exception e, s)
      | Ok temp_file =>
          if write_fails E temp_file then Some (Fail, on_exception OSError, s)
          else Some (Open, Writing temp_file (iterencode E (_data s)),
                     set_files (<[temp_file := ""]> (files s)) s)
      end
  | Writing temp_file [] => Some (Close, Written temp_file, s)
  | Writing temp_file (chunk :: pending) =>
      Some (Write, Writing temp_file pending, append_file temp_file chunk s)
  | Written temp_file =>
      match replace E temp_file data_file_path s with
      | (Ok _, s') => Some (Rename, Returned (Ok true), s')
      | (Raise e, s') => Some (Fail, on_exception e, s')
      end
  | Returned _ => None
  end.

(** The state after at most [n] steps, with the actions taken. *)
Fixpoint run (n : nat) (pt : point) (s : state)
  : list action * point * state :=
  match n with
  | O => ([], pt, s)
  | S n' =>
      match step pt s with
      | None => ([], pt, s)
      | Some (a, pt', s') =>
          let '(acts, pt'', s'') := run n' pt' s' in
          (a :: acts, pt'', s'')
      end
  end.

(** The temporary file a point of the save has open or has written. *)
Definition point_uses (temp_file : path) (pt : point) : Prop :=
  match pt with
  | Writing t _ | Written t => t = temp_file
  | _ => True
  end.

Definition _handle_data_corruption : M unit :=
  let* present := file_exists data_file_path in
  let* _ :=
    if present then
      let* t := now E in
      let backup_name :=
        "corrupted_data_" +:+ strftime_stamp E t +:+ ".json" in
      let backup_path := backup_dir ++ [backup_name] in
      let* _ := mkdir E backup_dir in
      copy2 E data_file_path backup_path
    else ret tt in
  let* d := empty_data in
  let* _ := put_data d in
  let* _ := _save_data in
  ret tt.

(** [if 'k' not in self._data: self._data['k'] = default] *)
Definition ensure_key (k : string) (default : json) (d : dict) : dict :=
  if dict_has k d then d else dict_set k default d.

Definition _load_data : M unit :=
  try_except
    (let* present := file_exists data_file_path in
     if present then
       let* text := read_text data_file_path in
       let* v := lift (loads E text) in
       let* _ := put_data v in
       match v with
       | JDict d =>
           put_data (JDict (ensure_key "metadata" (JDict [])
                              (ensure_key "categories" (JList [])
                                 (ensure_key "transactions" (JList []) d))))
       | _ => raise ValueError
       end
     else
       let* d := empty_data in
       let* _ := put_data d in
       let* _ := _save_data in
       ret tt)
    is_decode_value_or_io
    (fun _ => _handle_data_corruption).

(** [__init__]: the document is [None] until [_load_data] sets it. *)
Definition init : M unit :=
  let* _ := put_data JNull in
  _load_data.

(** [existing_data.get(key) == s] *)
Definition field_is (key s : string) (record : json) : res bool :=
  let? v := py_get record key JNull in
  Ok (eq_str v s).

Definition field_is_not (key s : string) (record : json) : res bool :=
  let? b := field_is key s record in
  Ok (negb b).

(** [existing_data.get(key) == v] *)
Definition field_eq (key : string) (v : json) (record : json) : res bool :=
  let? x := py_get record key JNull in
  Ok (py_eq x v).

(** The body shared by [save_transaction] and [save_category]: replace
    the first record whose [key] equals [v], or append. *)
Definition upsert (collection key : string) (v : json) (record : res dict)
  : M bool :=
  try_except
    (let* d := get_data in
     let* records := lift (py_getitem d collection) in
     let* items := lift (py_iter records) in
     let* existing_index := lift (find_index (field_eq key v) items 0%nat) in
     let* record := lift record in
     let* records :=
       lift (match existing_index with
             | Some i => list_setitem records i (JDict record)
             | None => list_append records (JDict record)
             end) in
     let* d := lift (py_setitem d collection records) in
     let* _ := put_data d in
     _save_data)
    any_exception
    (fun _ => ret false).

Definition save_transaction (transaction : Transaction.t) : M bool :=
  let* valid := lift (Transaction.is_valid transaction) in
  if negb valid then ret false
  else upsert "transactions" "id" (Transaction.id transaction)
         (Transaction.to_dict transaction).

Definition save_category (category : Category.t) : M bool :=
  let* valid := lift (Category.is_valid category) in
  if negb valid then ret false
  else upsert "categories" "name" (Category.name category)
         (Category.to_dict category).

(** [Transaction.from_dict(record)] on a stored record of any shape. *)
Definition transaction_of_json (record : json) : M Transaction.t :=
  match record with
  | JDict d => Transaction.from_dict E d
  | _ => raise AttributeError
  end.

Definition category_of_json (record : json) : res Category.t :=
  match record with
  | JDict d => Category.from_dict d
  | _ => Raise AttributeError
  end.

Definition get_transaction (transaction_id : string)
  : M (option Transaction.t) :=
  try_except
    (let* d := get_data in
     let* records := lift (py_getitem d "transactions") in
     let* items := lift (py_iter records) in
     let* found := lift (find_record (field_is "id" transaction_id) items) in
     match found with
     | Some record => let* t := transaction_of_json record in ret (Some t)
     | None => ret None
     end)
    any_exception
    (fun _ => ret None).

(** The loop of [get_all_transactions]: a record that does not parse is
    skipped. *)
Fixpoint parse_transactions (items : list json) : M (list Transaction.t) :=
  match items with
  | [] => ret []
  | record :: items' =>
      let* parsed :=
        try_except
          (let* t := transaction_of_json record in ret (Some t))
          any_exception
          (fun _ => ret None) in
      let* rest := parse_transactions items' in
      ret (match parsed with Some t => t :: rest | None => rest end)
  end.

(** The date of a transaction [from_dict] built: it is a datetime, or
    [from_dict] would have raised. *)
Definition date_of (t : Transaction.t) : res datetime :=
  match Transaction.date t with
  | Is d => Ok d
  | Other _ => Raise TypeError
  end.

Fixpoint dated (l : list Transaction.t)
  : res (list (datetime * Transaction.t)) :=
  match l with
  | [] => Ok []
  | t :: l' =>
      let? d := date_of t in
      let? r := dated l' in
      Ok ((d, t) :: r)
  end.

Definition get_all_transactions : M (list Transaction.t) :=
  try_except
    (let* d := get_data in
     let* records := lift (py_getitem d "transactions") in
     let* items := lift (py_iter records) in
     let* transactions := parse_transactions items in
     let* keyed := lift (dated transactions) in
     let* sorted := lift (sort_by_datetime fst keyed) in
     ret (map snd sorted))
    any_exception
    (fun _ => ret []).

Definition update_transaction (transaction : Transaction.t) : M bool :=
  save_transaction transaction.

(** The body shared by [delete_transaction] and the second half of
    [delete_category]: keep the records whose [key] is not [s], and save
    when the collection got shorter. *)
Definition remove_records (collection key s : string) : M bool :=
  let* d := get_data in
  let* records := lift (py_getitem d collection) in
  let* original_length := lift (py_len records) in
  let* items := lift (py_iter records) in
  let* kept := lift (filter_res (field_is_not key s) items) in
  let* d := lift (py_setitem d collection (JList kept)) in
  let* _ := put_data d in
  if Z.of_nat (length kept) <? original_length then _save_data
  else ret false.

Definition delete_transaction (transaction_id : string) : M bool :=
  try_except
    (remove_records "transactions" "id" transaction_id)
    any_exception
    (fun _ => ret false).

Definition get_category (category_name : string) : M (option Category.t) :=
  try_except
    (let* d := get_data in
     let* records := lift (py_getitem d "categories") in
     let* items := lift (py_iter records) in
     let* found := lift (find_record (field_is "name" category_name) items) in
     match found with
     | Some record => let* c := lift (category_of_json record) in ret (Some c)
     | None => ret None
     end)
    any_exception
    (fun _ => ret None).

(** [category_data.get('name') == category_name and
     category_data.get('is_default', False)] *)
Definition is_protected (category_name : string) (record : json) : res bool :=
  let? named := field_is "name" category_name record in
  if named then
    let? flag := py_get record "is_default" (JBool false) in
    Ok (truthy flag)
  else Ok false.

Definition delete_category (category_name : string) : M bool :=
  try_except
    (let* d := get_data in
     let* records := lift (py_getitem d "categories") in
     let* items := lift (py_iter records) in
     let* protected := lift (find_record (is_protected category_name) items) in
     match protected with
     | Some _ => ret false
     | None => remove_records "categories" "name" category_name
     end)
    any_exception
    (fun _ => ret false).

End Repository.
End JSONRepository.

(** ** [services/category_service.py]: deleting a category *)
Module CategoryService.
Section Service.
Variable E : runtime.
Variable data_file_path : path.

(** [transaction_data.get(k)] on what [get_all_transactions] returns: a
    [Transaction] is a dataclass instance and has no attribute [get]. *)
Definition transaction_get (t : Transaction.t) (k : string) : res json :=
  Raise AttributeError.

(** The loop of [_is_category_in_use]. *)
Fixpoint any_uses (category_name : string) (l : list Transaction.t)
  : res bool :=
  match l with
  | [] => Ok false
  | transaction_data :: l' =>
      let? v := transaction_get transaction_data "category" in
      if eq_str v category_name then Ok true
      else any_uses category_name l'
  end.

Definition _is_category_in_use (category_name : string) : M bool :=
  try_except
    (let* all_transactions :=
       JSONRepository.get_all_transactions E in
     lift (any_uses category_name all_transactions))
    any_exception
    (fun _ => ret true).

Definition delete_category (category_name : string) : M bool :=
  try_except
    (let* category := JSONRepository.get_category category_name in
     match category with
     | None => ret false
     | Some category =>
         if truthy (Category.is_default category) then ret false
         else
           let* in_use := _is_category_in_use category_name in
           if in_use then ret false
           else JSONRepository.delete_category E data_file_path category_name
     end)
    any_exception
    (fun _ => ret false).

End Service.
End CategoryService.

(** ** [utils/data_manager.py]: [DataMigration]

    A document is the dict [json.load] returned.  The transitions fill
    fields into the stored records in place; the functions here return the
    migrated document. *)
Module DataMigration.
Section Migration.
Variable E : runtime.

Definition CURRENT_VERSION : string := "1.0.0".

Definition get_data_version (data : dict) : json :=
  dict_get_default "schema_version" (JStr "0.8.0") data.

Definition needs_migration (data : dict) : bool :=
  negb (eq_str (get_data_version data) CURRENT_VERSION).

(** [for i, x in enumerate(l): body], where the body may change [x] in
    place. *)
Fixpoint for_each (body : nat -> json -> M json) (i : nat) (l : list json)
  : M (list json) :=
  match l with
  | [] => ret []
  | x :: l' =>
      let* x' := body i x in
      let* r := for_each body (S i) l' in
      ret (x' :: r)
  end.

(** The same loop over the value found under a key.  The elements of a
    list are the stored records; the keys of a dict and the characters of
    a string cannot be changed, so the body leaves them alone or raises. *)
Definition for_records (v : json) (body : nat -> json -> M json) : M json :=
  match v with
  | JList l =>
      let* l' := for_each body 0%nat l in
      ret (JList l')
  | _ =>
      let* items := lift (py_iter v) in
      let* _ := for_each body 0%nat items in
      ret v
  end.

(** [for x in data.get(key, []): body] *)
Definition for_records_of (key : string) (data : dict)
    (body : nat -> json -> M json) : M dict :=
  match dict_get key data with
  | None => ret data
  | Some v =>
      let* v' := for_records v body in
      ret (dict_set key v' data)
  end.

(** [if k not in x: x[k] = value] *)
Definition fill (k : string) (value : json -> M json) (x : json) : M json :=
  let* present := lift (py_contains k x) in
  if present then ret x
  else
    let* v := value x in
    lift (py_setitem x k v).

(** [transaction.get('date', datetime.now().isoformat())] *)
Definition date_or_now (x : json) : M json :=
  match x with
  | JDict d =>
      let* t := now E in
      ret (dict_get_default "date" (JStr (isoformat t)) d)
  | _ => raise AttributeError
  end.

Definition now_isoformat (_ : json) : M json :=
  let* t := now E in
  ret (JStr (isoformat t)).

Definition _migrate_from_0_8_0 (data : dict) : M dict :=
  let* migrated_data :=
    for_records_of "transactions" data
      (fun _ transaction =>
         let* transaction := fill "created_at" date_or_now transaction in
         fill "updated_at" date_or_now transaction) in
  for_records_of "categories" migrated_data
    (fun _ category =>
       let* category := fill "created_at" now_isoformat category in
       fill "is_default" (fun _ => ret (JBool false)) category).

Definition _migrate_from_0_9_0 (data : dict) : M dict :=
  let* migrated_data :=
    if dict_has "metadata" data then ret data
    else
      let* t1 := now E in
      let* t2 := now E in
      let* n_transactions :=
        lift (py_len (dict_get_default "transactions" (JList []) data)) in
      let* n_categories :=
        lift (py_len (dict_get_default "categories" (JList []) data)) in
      ret (dict_set "metadata"
             (JDict [("created_at", JStr (isoformat t1));
                     ("last_accessed", JStr (isoformat t2));
                     ("total_transactions", JInt n_transactions);
                     ("total_categories", JInt n_categories)])
             data) in
  for_records_of "transactions" migrated_data
    (fun i transaction =>
       let* id := lift (py_get transaction "id" JNull) in
       if truthy id then ret transaction
       else
         let* t := now E in
         lift (py_setitem transaction "id"
                 (JStr ("tx_" +:+ strftime_stamp E t +:+ "_" +:+
                        string_of_list_ascii (digits_of_N (N.of_nat i)))))).

(** The entry one run appends to [migration_history]. *)
Definition history_entry (from_version : json) (t : datetime) : json :=
  JDict [("from_version", from_version);
         ("to_version", JStr CURRENT_VERSION);
         ("migrated_at", JStr (isoformat t))].

Definition migrate_data (data : dict) : M dict :=
  let current_version := get_data_version data in
  if eq_str current_version CURRENT_VERSION then ret data
  else
    let* step1 :=
      if eq_str current_version "0.8.0"
      then let* m := _migrate_from_0_8_0 data in ret (m, JStr "0.9.0")
      else ret (data, current_version) in
    let* step2 :=
      if eq_str (snd step1) "0.9.0"
      then let* m := _migrate_from_0_9_0 (fst step1) in ret (m, JStr "1.0.0")
      else ret step1 in
    let migrated_data :=
      dict_set "schema_version" (JStr CURRENT_VERSION) (fst step2) in
    let history :=
      dict_get_default "migration_history" (JList []) migrated_data in
    let migrated_data := dict_set "migration_history" history migrated_data in
    let* history := lift (list_append_check history) in
    let* t := now E in
    ret (dict_set "migration_history"
           (JList (history ++ [history_entry (get_data_version data) t]))
           migrated_data).

End Migration.
End DataMigration.

(** ** [utils/error_handling.py]: [BackupManager]

    The backup directory is what [os.listdir] and [os.stat] show of it:
    its entries in listing order, one per name.  The file times of an
    entry are numbers that [datetime.fromtimestamp] turns into local
    times. *)
Module BackupManager.

Record dirent : Type := {
  d_name : string;
  st_size : Z;
  st_ctime : Z;
  st_mtime : Z
}.

(** One element of the list [list_backups] returns. *)
Record backup : Type := {
  filename : string;
  path_ : path;
  size : Z;
  created : datetime;
  modified : datetime
}.

(** [filename.endswith('.json')] *)
Definition endswith (s suffix : string) : bool :=
  is_prefix (string_of_list_ascii (rev (list_ascii_of_string suffix)))
            (string_of_list_ascii (rev (list_ascii_of_string s))).

(** [l[k:]] for any integer [k] *)
Definition slice_from {A} (k : Z) (l : list A) : list A :=
  if k <? 0 then skipn (Z.to_nat (Z.of_nat (length l) + k)) l
  else skipn (Z.to_nat k) l.

Section Manager.
Variable E : runtime.
(** [self.backup_dir] *)
Variable backup_dir : path.

(** The path of a directory entry: [os.path.join(self.backup_dir, filename)] *)
Definition entry_path (e : dirent) : path := backup_dir ++ [d_name e].

Definition backup_of (e : dirent) : backup :=
  {| filename := d_name e;
     path_ := entry_path e;
     size := st_size e;
     created := naive (fromtimestamp E (st_ctime e));
     modified := naive (fromtimestamp E (st_mtime e)) |}.

(** The sort key of [list_backups]: the creation time, a naive
    datetime. *)
Definition created_key (b : backup) : Z := datetime_key (created b).

(** [None] is a backup directory that does not exist.  The creation
    times are all naive, so the sort compares them. *)
Definition list_backups (dir : option (list dirent)) : list backup :=
  match dir with
  | None => []
  | Some entries =>
      sort_desc created_key
        (map backup_of
           (List.filter (fun e => endswith (d_name e) ".json") entries))
  end.

(** [os.remove(p)] on the directory: the entry goes, or [OSError]. *)
Definition remove (p : path) (entries : list dirent)
  : res unit * list dirent :=
  if write_fails E p then (Raise OSError, entries)
  else if existsb (fun e => bool_decide (entry_path e = p)) entries
       then (Ok tt,
             List.filter (fun e => negb (bool_decide (entry_path e = p)))
               entries)
       else (Raise OSError, entries).

(** Whether [os.remove] succeeds on the file of a backup. *)
Definition removable (b : backup) : bool := negb (write_fails E (path_ b)).

(** The entry is the file of one of the backups in [old] that can be
    removed. *)
Definition gone (old : list backup) (e : dirent) : bool :=
  existsb (fun b => bool_decide (path_ b = entry_path e) && removable b) old.

(** The deletion loop: a file that cannot be removed is skipped. *)
Fixpoint remove_all (old : list backup) (deleted_count : Z)
    (entries : list dirent) : Z * list dirent :=
  match old with
  | [] => (deleted_count, entries)
  | b :: old' =>
      match remove (path_ b) entries with
      | (Ok _, entries') => remove_all old' (deleted_count + 1) entries'
      | (Raise _, entries') => remove_all old' deleted_count entries'
      end
  end.

Definition cleanup_old_backups (keep_count : Z) (dir : option (list dirent))
  : Z * option (list dirent) :=
  let backups := list_backups dir in
  if Z.of_nat (length backups) <=? keep_count then (0, dir)
  else
    match dir with
    | None => (0, dir)
    | Some entries =>
        let '(n, entries') := remove_all (slice_from keep_count backups) 0 entries in
        (n, Some entries')
    end.

End Manager.
End BackupManager.

(** ** Reading the document

    The stored collection under [key], when the document is a dict that
    holds a list there. *)
Definition stored (key : string) (s : state) : option (list json) :=
  match _data s with
  | JDict d =>
      match dict_get key d with
      | Some (JList items) => Some items
      | _ => None
      end
  | _ => None
  end.

(** A stored record is a dict; its identifying field is [id] for a
    transaction and [name] for a category. *)
Definition is_dict (record : json) : Prop :=
  match record with JDict _ => True | _ => False end.

Definition record_key (key : string) (record : json) : json :=
  match record with
  | JDict r => dict_get_none key r
  | _ => JNull
  end.

(** Insert-or-replace in the words of the specification: the first
    record whose identifier equals [v] is replaced where it stands; when
    there is none, the new record goes to the end. *)
Fixpoint index_of_key (key : string) (v : json) (items : list json)
  : option nat :=
  match items with
  | [] => None
  | x :: items' =>
      if py_eq (record_key key x) v then Some 0%nat
      else option_map S (index_of_key key v items')
  end.

Definition replace_or_append (key : string) (v : json) (record : json)
    (items : list json) : list json :=
  match index_of_key key v items with
  | Some i => <[i := record]> items
  | None => items ++ [record]
  end.

(** The identifiers in a collection are pairwise distinct. *)
Definition unique_keys (key : string) (items : list json) : Prop :=
  Forall is_dict items /\ NoDup (map (record_key key) items).

(** Both collections of the document are lists of records with distinct
    identifiers. *)
Definition unique_document (s : state) : Prop :=
  exists transactions categories,
    stored "transactions" s = Some transactions /\
    stored "categories" s = Some categories /\
    unique_keys "id" transactions /\
    unique_keys "name" categories.

(** The rules of [Transaction.validate] the specification names: the
    description is missing (it counts as false) or, once surrounding
    white space is stripped, is empty or longer than 200 characters; the
    amount is a Decimal not above zero or no Decimal at all; the type is
    no [TransactionType]. *)
Definition breaks_a_rule (t : Transaction.t) : Prop :=
  truthy (Transaction.description t) = false \/
  (exists d, Transaction.description t = JStr d /\
             (strip d = "" \/ (200 < String.length (strip d))%nat)) \/
  (exists d, Transaction.amount t = Is d /\ Decimal_le_zero d = Ok true) \/
  (exists v, Transaction.amount t = Other v) \/
  (exists v, Transaction.transaction_type t = Other v).

(** The fields [__post_init__] fills are filled: the identifier is not
    [None], the date and the creation time are datetimes. *)
Definition filled (t : Transaction.t) : Prop :=
  Transaction.id t <> JNull /\
  (exists d, Transaction.date t = Is d) /\
  (exists c, Transaction.created_at t = Some c).

(** The standard library reads back the three texts [to_dict] writes
    for [t]: [Decimal(str(a)) == a] for its amount and
    [datetime.fromisoformat(d.isoformat()) == d] for its date and its
    creation time. *)
Definition reads_back (E : runtime) (t : Transaction.t) : Prop :=
  (forall a, Transaction.amount t = Is a ->
     Decimal_of E (JStr (string_of_list_ascii (Decimal_str a))) = Ok a) /\
  (forall d, Transaction.date t = Is d ->
     fromisoformat E (JStr (isoformat d)) = Ok d) /\
  (forall c, Transaction.created_at t = Some c ->
     fromisoformat E (JStr (isoformat c)) = Ok c).

(** The shape the migration expects of a document: transactions and
    categories, where present, are lists of records, and the migration
    history, where present, is a list. *)
Definition records_or_absent (v : option json) : Prop :=
  match v with
  | None => True
  | Some v => exists l, v = JList l /\ Forall is_dict l
  end.

Definition migratable (data : dict) : Prop :=
  records_or_absent (dict_get "transactions" data) /\
  records_or_absent (dict_get "categories" data) /\
  match dict_get "migration_history" data with
  | None => True
  | Some v => exists h, v = JList h
  end.

(** The migration history of a document; an absent key is an empty
    history. *)
Definition history_of (data : dict) : json :=
  dict_get_default "migration_history" (JList []) data.

(** The date of a transaction as a sort key, and whether it is an aware
    datetime ([from_dict] always sets a datetime). *)
Definition date_key (t : Transaction.t) : Z :=
  match Transaction.date t with
  | Is d => datetime_key d
  | Other _ => 0
  end.

Definition aware_date (t : Transaction.t) : bool :=
  match Transaction.date t with
  | Is d => is_aware d
  | Other _ => false
  end.

Definition has_date (t : Transaction.t) : Prop :=
  exists d, Transaction.date t = Is d.

(** Some of the dates are aware and some are naive. *)
Definition mixed_dates (l : list Transaction.t) : bool :=
  existsb aware_date l && existsb (fun t => negb (aware_date t)) l.

(** The document in memory and the files are the same in both states;
    the clock and the random source may have been read in between. *)
Definition same_document (s s' : state) : Prop :=
  _data s' = _data s /\ files s' = files s.

(** ** Sample values

    A runtime whose clock advances one second per read, whose file
    system never fails, and whose standard library knows the two texts
    the examples below store, as Python reads them; a store path, and
    the records of the examples. *)
Definition noon : datetime := mk_datetime 2024 1 15 12 0 0 0 None.

(** The same local time in UTC: an aware datetime. *)
Definition noon_utc : datetime := mk_datetime 2024 1 15 12 0 0 0 (Some 0).

Definition E0 : runtime :=
  {| clock := fun n =>
       mk_datetime 2024 1 15 10 ((N.of_nat n / 60) mod 60) (N.of_nat n mod 60)
         0 None;
     urandom := fun n => N.of_nat n;
     Decimal_of := fun v =>
       match v with
       | JStr s =>
           if String.eqb s "100.50" then Ok (DFin false 10050 (-2))
           else Raise InvalidOperation
       | _ => Raise TypeError
       end;
     fromisoformat := fun v =>
       match v with
       | JStr s =>
           if String.eqb s "2024-01-15T12:00:00" then Ok noon
           else if String.eqb s "2024-01-15T12:00:00+00:00" then Ok noon_utc
           else Raise ValueError
       | _ => Raise TypeError
       end;
     strftime_stamp := fun d =>
       string_of_list_ascii
         (zfill 4 (dt_year d) ++ zfill 2 (dt_month d) ++ zfill 2 (dt_day d) ++
          "_"%char :: zfill 2 (dt_hour d) ++ zfill 2 (dt_minute d) ++
          zfill 2 (dt_second d));
     fromtimestamp := fun t =>
       let n := Z.to_N t in
       mk_datetime 2024 1 1 ((n / 3600) mod 24) ((n / 60) mod 60) (n mod 60)
         0 None;
     iterencode := fun _ => ["{"; "}"];
     loads := fun _ => Raise ValueError;
     write_fails := fun _ => false |}.

Definition store0 : path := ["data"; "expense_data.json"].

(** Amount 100.50, "Coffee", spent on [cat] at [date]. *)
Definition coffee_at (id cat : string) (date : dyn datetime) : Transaction.t :=
  {| Transaction.amount := Is (DFin false 10050 (-2));
     Transaction.description := JStr "Coffee";
     Transaction.category := JStr cat;
     Transaction.transaction_type := Is TransactionType.EXPENSE;
     Transaction.date := date;
     Transaction.id := JStr id;
     Transaction.created_at := Some noon |}.

Definition coffee (cat : string) : Transaction.t := coffee_at "t1" cat (Is noon).

(** The record [to_dict] writes for [coffee_at id cat (Is date)]. *)
Definition coffee_record_at (id cat : string) (date : datetime) : dict :=
  [("id", JStr id); ("amount", JStr "100.50");
   ("description", JStr "Coffee"); ("category", JStr cat);
   ("date", JStr (isoformat date));
   ("transaction_type", JStr "EXPENSE");
   ("created_at", JStr "2024-01-15T12:00:00")].

Definition coffee_record (cat : string) : dict := coffee_record_at "t1" cat noon.

Definition category_record (name : string) (is_default : bool) : dict :=
  [("name", JStr name); ("category_type", JStr "EXPENSE");
   ("is_default", JBool is_default)].

Definition document (transactions categories : list json) : json :=
  JDict [("transactions", JList transactions);
         ("categories", JList categories);
         ("metadata", JDict [("version", JStr "1.0")])].

(** A description of 201 characters: 200 letters and a trailing space. *)
Definition padded_description : string :=
  string_of_list_ascii (repeat "a"%char 200 ++ [" "%char]).

Definition padded_coffee : Transaction.t :=
  {| Transaction.amount := Is (DFin false 10050 (-2));
     Transaction.description := JStr padded_description;
     Transaction.category := JStr "Food";
     Transaction.transaction_type := Is TransactionType.EXPENSE;
     Transaction.date := Is noon;
     Transaction.id := JStr "t2";
     Transaction.created_at := Some noon |}.

(** A store file whose name already ends in [.tmp]. *)
Definition store_tmp : path := ["data"; "expenses.tmp"].

(** Three backups and a file that is none, in listing order. *)
Definition backup_entries : list BackupManager.dirent :=
  [ {| BackupManager.d_name := "expense_data_backup_20240102_000000.json";
       BackupManager.st_size := 10; BackupManager.st_ctime := 200;
       BackupManager.st_mtime := 200 |};
    {| BackupManager.d_name := "pre_migration_backup";
       BackupManager.st_size := 10; BackupManager.st_ctime := 250;
       BackupManager.st_mtime := 250 |};
    {| BackupManager.d_name := "expense_data_backup_20240103_000000.json";
       BackupManager.st_size := 10; BackupManager.st_ctime := 300;
       BackupManager.st_mtime := 300 |};
    {| BackupManager.d_name := "expense_data_backup_20240101_000000.json";
       BackupManager.st_size := 10; BackupManager.st_ctime := 100;
       BackupManager.st_mtime := 100 |} ].

(** A document of the oldest schema: no version, a transaction without
    identifier or timestamps. *)
Definition old_document : dict :=
  [("transactions",
    JList [JDict [("amount", JStr "12.00"); ("description", JStr "Tea");
                  ("category", JStr "Food");
                  ("date", JStr "2023-05-01T09:00:00");
                  ("transaction_type", JStr "EXPENSE")]]);
   ("categories",
    JList [JDict [("name", JStr "Food"); ("category_type", JStr "EXPENSE")]])].

Definition state_of (doc : json) (fs : gmap path string) : state :=
  {| _data := doc; files := fs; clock_reads := 0; random_draws := 0 |}.

(** A category of the user's own, not a default. *)
Definition custom : Category.t :=
  {| Category.name := JStr "Custom";
     Category.category_type := Is CategoryType.EXPENSE;
     Category.is_default := JBool false |}.

(** A store built through the repository: the category "Custom" is
    saved, then a transaction on it dated with a naive datetime, then a
    transaction on "Food" dated with an aware one. *)
Definition in_use_1 : state :=
  snd (JSONRepository.save_category E0 store0 custom
         (state_of (document [] []) ∅)).

Definition in_use_2 : state :=
  snd (JSONRepository.save_transaction E0 store0
         (coffee_at "t1" "Custom" (Is noon)) in_use_1).

Definition in_use_store : state :=
  snd (JSONRepository.save_transaction E0 store0
         (coffee_at "t2" "Food" (Is noon_utc)) in_use_2).

(** "Coffee" with a description of white space only, and with an amount
    that is not a number. *)
Definition blank_coffee : Transaction.t :=
  {| Transaction.amount := Is (DFin false 10050 (-2));
     Transaction.description := JStr "   ";
     Transaction.category := JStr "Food";
     Transaction.transaction_type := Is TransactionType.EXPENSE;
     Transaction.date := Is noon;
     Transaction.id := JStr "t3";
     Transaction.created_at := Some noon |}.

Definition nan_coffee : Transaction.t :=
  {| Transaction.amount := Is (DNaN false false 0);
     Transaction.description := JStr "Coffee";
     Transaction.category := JStr "Food";
     Transaction.transaction_type := Is TransactionType.EXPENSE;
     Transaction.date := Is noon;
     Transaction.id := JStr "t4";
     Transaction.created_at := Some noon |}.

(** The sample runtime on a file system where the directory
    [data/backups] cannot be created. *)
Definition E0_no_backups : runtime :=
  {| clock := clock E0;
     urandom := urandom E0;
     Decimal_of := Decimal_of E0;
     fromisoformat := fromisoformat E0;
     strftime_stamp := strftime_stamp E0;
     fromtimestamp := fromtimestamp E0;
     iterencode := iterencode E0;
     loads := loads E0;
     write_fails := fun p => bool_decide (p = ["data"; "backups"]) |}.

(** A store file that is not JSON. *)
Definition corrupted_store : state :=
  state_of JNull {[ store0 := "{not json" ]}.

(** * Properties *)

(** ** Dictionaries *)

Lemma dict_get_set_eq (k : string) (v : json) (d : dict) :
  dict_get k (dict_set k v d) = Some v.
Proof.
  induction d as [|[k' v'] d IH]; simpl.
  - by rewrite String.eqb_refl.
  - destruct (String.eqb k' k) eqn:Hk; simpl; by rewrite Hk.
Qed.

Lemma dict_get_set_ne (k k' : string) (v : json) (d : dict) :
  k <> k' -> dict_get k' (dict_set k v d) = dict_get k' d.
Proof.
  intros Hne. induction d as [|[k0 v0] d IH]; simpl.
  - destruct (String.eqb k k') eqn:Hk; [|done].
    apply String.eqb_eq in Hk. done.
  - destruct (String.eqb k0 k) eqn:Hk; simpl.
    + apply String.eqb_eq in Hk. subst k0.
      destruct (String.eqb k k') eqn:Hk'; [|done].
      apply String.eqb_eq in Hk'. done.
    + by rewrite IH.
Qed.

Lemma dict_set_length_present (k : string) (v : json) (d : dict) :
  dict_has k d = true -> length (dict_set k v d) = length d.
Proof.
  unfold dict_has. induction d as [|[k0 v0] d IH]; simpl; [done|].
  destruct (String.eqb k0 k); simpl; [done|].
  intros H. by rewrite IH.
Qed.

(** ** Searching a list of records *)

Lemma find_record_none (p : json -> res bool) (l : list json) :
  find_record p l = Ok None -> Forall (fun x => p x = Ok false) l.
Proof.
  induction l as [|x l IH]; simpl; intros H; [constructor|].
  destruct (p x) as [[|]|e] eqn:Hp; simpl in H; try discriminate.
  constructor; auto.
Qed.

Lemma find_record_some (p : json -> res bool) (l : list json) (x : json) :
  find_record p l = Ok (Some x) -> In x l /\ p x = Ok true.
Proof.
  induction l as [|y l IH]; simpl; intros H; [discriminate|].
  destruct (p y) as [[|]|e] eqn:Hp; simpl in H; try discriminate.
  - injection H as <-. auto.
  - destruct (IH H). auto.
Qed.

Lemma find_index_none (p : json -> res bool) (l : list json) (i : nat) :
  find_index p l i = Ok None -> Forall (fun x => p x = Ok false) l.
Proof.
  revert i. induction l as [|x l IH]; simpl; intros i H; [constructor|].
  destruct (p x) as [[|]|e] eqn:Hp; simpl in H; try discriminate.
  constructor; eauto.
Qed.

Lemma find_index_some (p : json -> res bool) (l : list json) (i j : nat) :
  find_index p l i = Ok (Some j) ->
  exists x, (i <= j)%nat /\ l !! (j - i)%nat = Some x /\ p x = Ok true /\
            Forall (fun y => p y = Ok false) (take (j - i) l).
Proof.
  revert i. induction l as [|y l IH]; simpl; intros i H; [discriminate|].
  destruct (p y) as [[|]|e] eqn:Hp; simpl in H; try discriminate.
  - injection H as <-. exists y. rewrite Nat.sub_diag. simpl.
    repeat split; auto.
  - destruct (IH _ H) as (x & Hle & Hx & Hpx & Hbefore).
    exists x. replace (j - i)%nat with (S (j - S i)) by lia. simpl.
    repeat split; auto; try lia.
Qed.

(** ** Deleting a category: the repository *)

Section DeleteCategory.
Variable E : runtime.
Variable data_file_path : path.

(** C2. Deleting a stored category whose [is_default] flag is true
    returns [False] and leaves the whole state, the document in memory
    and the files, as it was. *)
Theorem delete_default_category_refused
    (s : state) (items : list json) (c : dict) (name : string) :
  stored "categories" s = Some items ->
  In (JDict c) items ->
  dict_get "name" c = Some (JStr name) ->
  dict_get "is_default" c = Some (JBool true) ->
  JSONRepository.delete_category E data_file_path name s = (Ok false, s).
Proof.
  unfold stored. intros Hst Hin Hname Hdef.
  destruct (_data s) as [| | | |?|d] eqn:Hd; try discriminate.
  destruct (dict_get "categories" d) as [[| | | |l|?]|] eqn:Hc; try discriminate.
  injection Hst as ->.
  unfold JSONRepository.delete_category, try_except, bind, get_data, lift.
  rewrite Hd. simpl. unfold dict_getitem. rewrite Hc. simpl.
  destruct (find_record (JSONRepository.is_protected name) items)
    as [[x|]|e] eqn:Hf; simpl; try done.
  apply find_record_none in Hf. rewrite Forall_forall in Hf.
  apply list_elem_of_In in Hin.
  specialize (Hf _ Hin). unfold JSONRepository.is_protected,
    JSONRepository.field_is in Hf. simpl in Hf.
  unfold dict_get_default in Hf. rewrite Hname, Hdef in Hf. simpl in Hf.
  rewrite String.eqb_refl in Hf. simpl in Hf. discriminate.
Qed.

End DeleteCategory.

(** ** Reading transactions back *)

Ltac unfold_M :=
  unfold try_except, bind, lift, ret, raise, get_data, put_data in *.

Lemma same_document_refl (s : state) : same_document s s.
Proof. by split. Qed.

Lemma same_document_trans (s1 s2 s3 : state) :
  same_document s1 s2 -> same_document s2 s3 -> same_document s1 s3.
Proof. intros [? ?] [? ?]. split; congruence. Qed.

(** ** Saving records *)

Section SaveRecords.
Variable E : runtime.
Variable data_file_path : path.

Lemma stored_set_data_ne (k k' : string) (v : json) (d : dict) (s : state) :
  k <> k' ->
  _data s = JDict d ->
  stored k' (set_data (JDict (dict_set k v d)) s) = stored k' s.
Proof.
  intros Hne Hd. unfold stored. simpl. rewrite Hd.
  by rewrite dict_get_set_ne.
Qed.

Lemma stored_set_data_eq (k : string) (l : list json) (d : dict) (s : state) :
  stored k (set_data (JDict (dict_set k (JList l) d)) s) = Some l.
Proof. unfold stored. simpl. by rewrite dict_get_set_eq. Qed.

Lemma stored_set_files (k : string) (f : gmap path string) (s : state) :
  stored k (set_files f s) = stored k s.
Proof. reflexivity. Qed.

(** Stamping [last_modified] touches no file and no collection. *)
Lemma stamp_preserves (s s' : state) (r : res unit) :
  JSONRepository.stamp_last_modified E s = (r, s') ->
  files s' = files s /\
  forall k, k <> "metadata" -> stored k s' = stored k s.
Proof.
  unfold JSONRepository.stamp_last_modified, now. unfold_M. simpl.
  destruct (_data s) as [| | | |?|d] eqn:Hd; simpl;
    try (intros [= <- <-]; split; [done|]; intros k _; unfold stored; simpl;
         by rewrite Hd).
  unfold dict_getitem.
  destruct (dict_get "metadata" d) as [md|] eqn:Hmd; simpl;
    try (intros [= <- <-]; split; [done|]; intros k _; unfold stored; simpl;
         by rewrite Hd).
  destruct md as [| | | |?|m]; simpl;
    try (intros [= <- <-]; split; [done|]; intros k _; unfold stored; simpl;
         by rewrite Hd).
  intros [= <- <-]. split; [done|]. intros k Hk.
  unfold stored. simpl. rewrite Hd. rewrite dict_get_set_ne; [done|].
  congruence.
Qed.

(** Neither does the rest of [_save_data] touch a collection. *)
Lemma save_data_preserves (s s' : state) (r : res bool) :
  JSONRepository._save_data E data_file_path s = (r, s') ->
  forall k, k <> "metadata" -> stored k s' = stored k s.
Proof.
  unfold JSONRepository._save_data, try_except, bind.
  destruct (JSONRepository.stamp_last_modified E s) as [[[]|e] s1] eqn:Hst;
    apply stamp_preserves in Hst as [_ Hst].
  2:{ destruct (is_OSError e); unfold ret; intros [= <- <-]; auto. }
  unfold mkdir. destruct (write_fails E (path_parent data_file_path)).
  { simpl. unfold ret. intros [= <- <-]; auto. }
  unfold lift. destruct (with_suffix data_file_path ".tmp") as [tmp|e].
  2:{ destruct (is_OSError e); unfold ret; intros [= <- <-]; auto. }
  unfold get_data, write_json. destruct (write_fails E tmp).
  { simpl. unfold ret. intros [= <- <-]; auto. }
  unfold replace. simpl. rewrite lookup_insert_eq.
  destruct (write_fails E data_file_path); simpl; unfold ret;
    intros [= <- <-]; auto.
Qed.

(** In a list of records the search of [upsert] finds the first record
    with the identifier. *)
Lemma find_index_records (key : string) (k : json) (items : list json)
    (i : nat) :
  Forall is_dict items ->
  find_index (JSONRepository.field_eq key k) items i
  = Ok (option_map (fun j => (i + j)%nat) (index_of_key key k items)).
Proof.
  intros Hall. revert i. induction Hall as [|x items Hx _ IH]; intros i.
  - reflexivity.
  - destruct x as [| | | | |r]; try contradiction.
    cbn [find_index index_of_key record_key].
    unfold JSONRepository.field_eq at 1. cbn [py_get res_bind].
    unfold dict_get_none.
    destruct (py_eq (dict_get_default key JNull r) k); cbn [option_map].
    + by rewrite Nat.add_0_r.
    + rewrite IH. destruct (index_of_key key k items); simpl; [|done].
      do 2 f_equal. lia.
Qed.

Lemma index_of_key_lt (key : string) (k : json) (items : list json)
    (i : nat) :
  index_of_key key k items = Some i -> (i < length items)%nat.
Proof.
  revert i. induction items as [|x items IH]; cbn [index_of_key length];
    intros i; [done|].
  destruct (py_eq (record_key key x) k).
  - intros [= <-]. lia.
  - destruct (index_of_key key k items) as [j|]; simpl; [|done].
    intros [= <-]. specialize (IH j eq_refl). lia.
Qed.

(** What [upsert] leaves in memory: the collection with the record
    replaced or appended, whatever saving to disk then does. *)
Lemma upsert_spec (collection key : string) (k : json) (record : dict)
    (s : state) (items : list json) :
  collection <> "metadata" ->
  stored collection s = Some items ->
  Forall is_dict items ->
  exists b s',
    JSONRepository.upsert E data_file_path collection key k (Ok record) s
    = (Ok b, s') /\
    stored collection s'
    = Some (replace_or_append key k (JDict record) items) /\
    forall c, c <> collection -> c <> "metadata" -> stored c s' = stored c s.
Proof.
  intros Hcm Hst Hall. pose proof Hst as Hst0. unfold stored in Hst.
  destruct (_data s) as [| | | |?|d] eqn:Hd; try discriminate.
  destruct (dict_get collection d) as [[| | | |l0|?]|] eqn:Hc;
    try discriminate.
  injection Hst as ->.
  unfold JSONRepository.upsert, try_except, bind, get_data, lift.
  rewrite Hd. simpl. unfold dict_getitem. rewrite Hc. simpl.
  rewrite (find_index_records key k items 0 Hall). simpl.
  set (items' := replace_or_append key k (JDict record) items).
  assert (Hrec :
    match option_map (fun j : nat => j) (index_of_key key k items) with
    | Some i => list_setitem (JList items) i (JDict record)
    | None => list_append (JList items) (JDict record)
    end = Ok (JList items')).
  { unfold items', replace_or_append.
    destruct (index_of_key key k items) as [i|] eqn:Hi; simpl; [|done].
    apply index_of_key_lt in Hi. apply Nat.ltb_lt in Hi. by rewrite Hi. }
  simpl in Hrec. rewrite Hrec. simpl. unfold put_data.
  set (s1 := set_data (JDict (dict_set collection (JList items') d)) s).
  assert (H1 : stored collection s1 = Some items')
    by apply stored_set_data_eq.
  assert (H2 : forall c, c <> collection -> stored c s1 = stored c s).
  { intros c Hne. apply stored_set_data_ne; [congruence|done]. }
  destruct (JSONRepository._save_data E data_file_path s1) as [[b|e] s2] eqn:Hsv;
    pose proof (save_data_preserves _ _ _ Hsv) as Hp.
  - exists b, s2. split; [done|]. split.
    + by rewrite Hp.
    + intros c Hc1 Hc2. rewrite Hp; auto.
  - simpl. unfold ret. exists false, s2. split; [done|]. split.
    + by rewrite Hp.
    + intros c Hc1 Hc2. rewrite Hp; auto.
Qed.

End SaveRecords.

(** ** Validation *)

Lemma length_zero_app {A} (l1 l2 : list A) :
  (length (l1 ++ l2) =? 0)%nat = (length l1 =? 0)%nat && (length l2 =? 0)%nat.
Proof. destruct l1; simpl; [|done]. by destruct l2. Qed.

Lemma length_zero_nil {A} (l : list A) : (length l =? 0)%nat = true <-> l = [].
Proof. by destruct l. Qed.

Lemma eq_str_true (v : json) (k : string) : eq_str v k = true <-> v = JStr k.
Proof.
  destruct v; simpl; split; try done.
  - intros H. apply String.eqb_eq in H. by subst.
  - intros [= ->]. apply String.eqb_refl.
Qed.

(** Only an equal string is equal to a string. *)
Lemma py_eq_str (v : json) (k : string) : py_eq v (JStr k) = eq_str v k.
Proof. by destruct v. Qed.

Lemma nonempty_false (s : string) : nonempty s = false <-> s = "".
Proof.
  unfold nonempty. rewrite negb_false_iff. apply String.eqb_eq.
Qed.

Lemma is_blank_str (s : string) :
  is_blank (JStr s) = Ok (negb (nonempty (strip s))).
Proof. by destruct s. Qed.

(** What is not blank is a string with more than white space in it. *)
Lemma is_blank_false (v : json) :
  is_blank v = Ok false -> exists s, v = JStr s /\ strip s <> "".
Proof.
  destruct v as [| b | n | s | l | d].
  - discriminate.
  - by destruct b.
  - unfold is_blank. simpl. by destruct (n =? 0).
  - rewrite is_blank_str. intros [= H].
    exists s. split; [done|]. intros Hs.
    rewrite Hs in H. done.
  - by destruct l.
  - by destruct d.
Qed.

Lemma check_amount_nil (a : dyn Decimal) :
  Transaction.check_amount a = Ok [] ->
  exists d, a = Is d /\ Decimal_le_zero d = Ok false.
Proof.
  destruct a as [d|v]; simpl; [|done].
  destruct (Decimal_le_zero d) as [[|]|] eqn:Hd; simpl; try done. eauto.
Qed.

Lemma check_description_nil (v : json) :
  Transaction.check_description v = Ok [] ->
  exists d, v = JStr d /\ strip d <> "" /\ (String.length (strip d) <= 200)%nat.
Proof.
  unfold Transaction.check_description.
  destruct (is_blank v) as [[|]|] eqn:Hb; simpl; try done.
  apply is_blank_false in Hb as (d & -> & Hd). simpl.
  destruct (200 <? String.length (strip d))%nat eqn:Hlen; [done|].
  apply Nat.ltb_ge in Hlen. eauto.
Qed.

Lemma check_category_nil (v : json) :
  Transaction.check_category v = Ok [] ->
  exists c, v = JStr c /\ strip c <> "".
Proof.
  unfold Transaction.check_category.
  destruct (is_blank v) as [[|]|] eqn:Hb; simpl; try done.
  intros _. by apply is_blank_false.
Qed.

(** [validate] returns what its five checks return, in order. *)
Lemma validate_inv (t : Transaction.t) (errors : list string) :
  Transaction.validate t = Ok errors ->
  exists e1 e2 e3,
    Transaction.check_amount (Transaction.amount t) = Ok e1 /\
    Transaction.check_description (Transaction.description t) = Ok e2 /\
    Transaction.check_category (Transaction.category t) = Ok e3 /\
    errors = e1 ++ e2 ++ e3
             ++ Transaction.check_type (Transaction.transaction_type t)
             ++ Transaction.check_date (Transaction.date t).
Proof.
  unfold Transaction.validate.
  destruct (Transaction.check_amount _) as [e1|]; [|done].
  destruct (Transaction.check_description _) as [e2|]; [|done].
  destruct (Transaction.check_category _) as [e3|]; [|done].
  simpl. intros [= <-]. by exists e1, e2, e3.
Qed.

Lemma is_valid_inv (t : Transaction.t) (b : bool) :
  Transaction.is_valid t = Ok b ->
  exists errors,
    Transaction.validate t = Ok errors /\ b = (length errors =? 0)%nat.
Proof.
  unfold Transaction.is_valid.
  destruct (Transaction.validate t) as [errors|]; [|done].
  simpl. intros [= <-]. by exists errors.
Qed.

(** What [validate] has checked when [is_valid] answers [True]: the
    amount is a Decimal above zero, description and category are strings
    with more than white space in them, the description has at most 200
    characters once stripped, the type is a [TransactionType], and the
    date is a datetime or counts as false. *)
Lemma valid_fields (t : Transaction.t) :
  Transaction.is_valid t = Ok true ->
  (exists a, Transaction.amount t = Is a /\ Decimal_le_zero a = Ok false) /\
  (exists d, Transaction.description t = JStr d /\ strip d <> "" /\
             (String.length (strip d) <= 200)%nat) /\
  (exists c, Transaction.category t = JStr c /\ strip c <> "") /\
  (exists ty, Transaction.transaction_type t = Is ty) /\
  Transaction.check_date (Transaction.date t) = [].
Proof.
  intros Hv. apply is_valid_inv in Hv as (errors & Hv & Hlen).
  symmetry in Hlen. apply length_zero_nil in Hlen. subst errors.
  apply validate_inv in Hv as (e1 & e2 & e3 & H1 & H2 & H3 & Happ).
  symmetry in Happ.
  apply app_eq_nil in Happ as [-> Happ]. apply app_eq_nil in Happ as [-> Happ].
  apply app_eq_nil in Happ as [-> Happ]. apply app_eq_nil in Happ as [H4 H5].
  split; [by apply check_amount_nil|].
  split; [by apply check_description_nil|].
  split; [by apply check_category_nil|].
  split; [|done].
  destruct (Transaction.transaction_type t) as [ty|]; [eauto|done].
Qed.

(** Every rule the specification names makes [is_valid] answer [False],
    when it answers. *)
Lemma breaks_a_rule_invalid (t : Transaction.t) (b : bool) :
  Transaction.is_valid t = Ok b -> breaks_a_rule t -> b = false.
Proof.
  intros Hv Hrule. destruct b; [|done]. exfalso.
  apply valid_fields in Hv
    as ((a & Ha & Hpos) & (d & Hd & Hne & Hlen) & _ & (ty & Hty) & _).
  destruct Hrule
    as [H|[(d' & Hd' & [H|H])|[(a' & Ha' & H)|[(v & H)|(v & H)]]]];
    [|congruence| | |congruence|congruence].
  - rewrite Hd in H. simpl in H. apply negb_false_iff, String.eqb_eq in H.
    subst d. by apply Hne.
  - rewrite Hd in Hd'. injection Hd' as <-. lia.
  - rewrite Ha in Ha'. injection Ha' as <-. congruence.
Qed.

(** A valid transaction has a real type and a date [to_dict] can write,
    so [to_dict] returns a record, and the record carries the
    identifier. *)
Lemma valid_to_dict (t : Transaction.t) :
  Transaction.is_valid t = Ok true ->
  exists record,
    Transaction.to_dict t = Ok record /\
    dict_get "id" record = Some (Transaction.id t).
Proof.
  intros Hv.
  apply valid_fields in Hv as (_ & _ & _ & (ty & Hty) & Hdate).
  unfold Transaction.to_dict. rewrite Hty.
  destruct (Transaction.date t) as [d|v]; simpl in *.
  - eexists. split; reflexivity.
  - destruct (scalar_truthy v); [done|]. simpl. eexists. split; reflexivity.
Qed.

Lemma category_validate_inv (c : Category.t) :
  Category.is_valid c = Ok true ->
  (exists n, Category.name c = JStr n /\ strip n <> "" /\
             (String.length (strip n) <= 50)%nat) /\
  exists ty, Category.category_type c = Is ty.
Proof.
  unfold Category.is_valid, Category.validate, Category.check_name.
  destruct (is_blank (Category.name c)) as [[|]|] eqn:Hb; simpl; try done.
  apply is_blank_false in Hb as (n & Hn & Hne). rewrite Hn. simpl.
  rewrite length_zero_app. intros [= H]. apply andb_prop in H as [H1 H2].
  split.
  - exists n. split; [done|]. split; [done|].
    destruct (50 <? String.length (strip n))%nat eqn:Hlen; [done|].
    by apply Nat.ltb_ge in Hlen.
  - destruct (Category.category_type c) as [ty|]; [eauto|done].
Qed.

Lemma valid_category_to_dict (c : Category.t) :
  Category.is_valid c = Ok true ->
  exists record n,
    Category.to_dict c = Ok record /\
    Category.name c = JStr n /\
    dict_get "name" record = Some (JStr n).
Proof.
  intros Hv. apply category_validate_inv in Hv as ((n & Hn & _) & (ty & Hty)).
  unfold Category.to_dict. rewrite Hty, Hn. simpl.
  eexists _, n. repeat split.
Qed.

Section SaveTransaction.
Variable E : runtime.
Variable data_file_path : path.


End SaveTransaction.

(** ** Identifiers stay unique *)

Lemma index_of_key_some (key k : string) (items : list json) (i : nat) :
  index_of_key key (JStr k) items = Some i ->
  exists x, items !! i = Some x /\ record_key key x = JStr k.
Proof.
  revert i. induction items as [|x items IH]; cbn [index_of_key];
    intros i; [done|].
  rewrite py_eq_str.
  destruct (eq_str (record_key key x) k) eqn:Hx.
  - intros [= <-]. exists x. split; [done|]. by apply eq_str_true.
  - destruct (index_of_key key (JStr k) items) as [j|]; simpl; [|done].
    intros [= <-]. apply (IH j eq_refl).
Qed.

Lemma index_of_key_none (key k : string) (items : list json) :
  index_of_key key (JStr k) items = None ->
  ~ In (JStr k) (map (record_key key) items).
Proof.
  induction items as [|x items IH]; cbn [index_of_key map]; [simpl; tauto|].
  rewrite py_eq_str.
  destruct (eq_str (record_key key x) k) eqn:Hx; [done|].
  destruct (index_of_key key (JStr k) items); simpl; [done|].
  intros _ [H|H]; [|by apply IH].
  apply eq_str_true in H. congruence.
Qed.

(** Replacing the record with the identifier, or appending when there is
    none, keeps string identifiers distinct. *)
Lemma unique_replace_or_append (key k : string) (record : dict)
    (items : list json) :
  dict_get key record = Some (JStr k) ->
  unique_keys key items ->
  unique_keys key (replace_or_append key (JStr k) (JDict record) items).
Proof.
  intros Hk [Hall Hnd]. unfold replace_or_append.
  assert (Hrk : record_key key (JDict record) = JStr k).
  { simpl. unfold dict_get_none, dict_get_default. by rewrite Hk. }
  destruct (index_of_key key (JStr k) items) as [i|] eqn:Hi.
  - destruct (index_of_key_some _ _ _ _ Hi) as (x & Hx & Hkx). split.
    + apply Forall_insert; [done|exact I].
    + rewrite list_fmap_insert, Hrk.
      rewrite list_insert_id; [done|].
      by rewrite list_lookup_fmap, Hx, <- Hkx.
  - apply index_of_key_none in Hi. split.
    + apply Forall_app. split; [done|]. by constructor.
    + rewrite map_app.
      change (map (record_key key) [JDict record])
        with [record_key key (JDict record)].
      rewrite Hrk. apply NoDup_app. split; [done|]. split.
      * intros y Hy Hin. apply list_elem_of_singleton in Hin. subst y.
        apply Hi. by apply list_elem_of_In.
      * apply NoDup_singleton.
Qed.

Section Uniqueness.
Variable E : runtime.
Variable data_file_path : path.

Lemma save_transaction_unique (t : Transaction.t) (k : string) (s : state) :
  Transaction.id t = JStr k ->
  unique_document s ->
  unique_document (snd (JSONRepository.save_transaction E data_file_path t s)).
Proof.
  intros Hk Hs. pose proof Hs as (txs & cats & Htx & Hcat & Hut & Huc).
  unfold JSONRepository.save_transaction, bind, lift.
  destruct (Transaction.is_valid t) as [[|]|e] eqn:Hv; simpl; try done.
  destruct (valid_to_dict t Hv) as (record & Hrec & Hid). rewrite Hrec.
  destruct (upsert_spec E data_file_path "transactions" "id"
              (Transaction.id t) record s txs) as (b & s' & Hu & Hs' & Hother);
    [done|done|apply Hut|].
  rewrite Hu. simpl. eexists _, cats. split; [exact Hs'|].
  split; [by rewrite Hother|]. split; [|done].
  rewrite Hk in *. by apply unique_replace_or_append.
Qed.

Lemma save_category_unique (c : Category.t) (s : state) :
  unique_document s ->
  unique_document (snd (JSONRepository.save_category E data_file_path c s)).
Proof.
  intros Hs. pose proof Hs as (txs & cats & Htx & Hcat & Hut & Huc).
  unfold JSONRepository.save_category, bind, lift.
  destruct (Category.is_valid c) as [[|]|e] eqn:Hv; simpl; try done.
  destruct (valid_category_to_dict c Hv) as (record & n & Hrec & Hn & Hid).
  rewrite Hrec.
  destruct (upsert_spec E data_file_path "categories" "name"
              (Category.name c) record s cats) as (b & s' & Hu & Hs' & Hother);
    [done|done|apply Huc|].
  rewrite Hu. simpl. eexists txs, _. split; [by rewrite Hother|].
  split; [exact Hs'|]. split; [done|].
  rewrite Hn. by apply unique_replace_or_append.
Qed.


End Uniqueness.

(** ** Migration *)

Section MigrationFacts.
Variable E : runtime.

(** A transition only rewrites the collection it loops over. *)
Lemma for_records_of_other (key : string) (data data' : dict)
    (body : nat -> json -> M json) (s s' : state) :
  DataMigration.for_records_of key data body s = (Ok data', s') ->
  forall k, k <> key -> dict_get k data' = dict_get k data.
Proof.
  unfold DataMigration.for_records_of.
  destruct (dict_get key data) as [v|]; unfold_M.
  - destruct (DataMigration.for_records v body s) as [[v'|e] s1]; [|done].
    intros [= <- <-] k Hk. by apply dict_get_set_ne.
  - by intros [= <- <-].
Qed.

Lemma migrate_0_8_0_other (data data' : dict) (s s' : state) :
  DataMigration._migrate_from_0_8_0 E data s = (Ok data', s') ->
  forall k, k <> "transactions" -> k <> "categories" ->
            dict_get k data' = dict_get k data.
Proof.
  unfold DataMigration._migrate_from_0_8_0, bind.
  destruct (DataMigration.for_records_of "transactions" data _ s)
    as [[d1|e] s1] eqn:H1; [|done].
  intros H2 k Hk1 Hk2.
  rewrite (for_records_of_other _ _ _ _ _ _ H2 k Hk2).
  by rewrite (for_records_of_other _ _ _ _ _ _ H1 k Hk1).
Qed.

Lemma migrate_0_9_0_other (data data' : dict) (s s' : state) :
  DataMigration._migrate_from_0_9_0 E data s = (Ok data', s') ->
  forall k, k <> "transactions" -> k <> "metadata" ->
            dict_get k data' = dict_get k data.
Proof.
  unfold DataMigration._migrate_from_0_9_0, bind.
  destruct (dict_has "metadata" data).
  - unfold ret at 1. intros H k Hk1 Hk2.
    by rewrite (for_records_of_other _ _ _ _ _ _ H k Hk1).
  - unfold now at 1 2. simpl. unfold lift.
    destruct (py_len (dict_get_default "transactions" (JList []) data));
      [|done].
    destruct (py_len (dict_get_default "categories" (JList []) data));
      [|done].
    unfold ret at 1. intros H k Hk1 Hk2.
    rewrite (for_records_of_other _ _ _ _ _ _ H k Hk1).
    apply dict_get_set_ne. congruence.
Qed.

(** What a migration that runs returns: the document of its
    transitions, stamped with the current version, with one entry added
    to the history the document came with. *)
Lemma migrate_data_result (data data' : dict) (s s' : state) :
  DataMigration.needs_migration data = true ->
  DataMigration.migrate_data E data s = (Ok data', s') ->
  dict_get "schema_version" data' = Some (JStr DataMigration.CURRENT_VERSION) /\
  exists h t,
    history_of data = JList h /\
    dict_get "migration_history" data'
    = Some (JList (h ++ [DataMigration.history_entry
                           (DataMigration.get_data_version data) t])).
Proof.
  unfold DataMigration.needs_migration, DataMigration.migrate_data.
  intros Hneed. apply negb_true_iff in Hneed. rewrite Hneed.
  unfold bind at 1.
  set (v := DataMigration.get_data_version data).
  destruct ((if eq_str v "0.8.0"
             then bind (DataMigration._migrate_from_0_8_0 E data)
                    (fun m => ret (m, JStr "0.9.0"))
             else ret (data, v)) s) as [[[d1 v1]|e] s1] eqn:H1; [|done].
  assert (Hd1 : dict_get "migration_history" d1
                = dict_get "migration_history" data).
  { destruct (eq_str v "0.8.0").
    - unfold bind, ret in H1.
      destruct (DataMigration._migrate_from_0_8_0 E data s)
        as [[m|e] s0] eqn:Hm; [|done].
      injection H1 as <- <- <-.
      by apply (migrate_0_8_0_other _ _ _ _ Hm).
    - unfold ret in H1. by injection H1 as <- <- <-. }
  unfold bind at 1. cbn [fst snd].
  destruct ((if eq_str v1 "0.9.0"
             then bind (DataMigration._migrate_from_0_9_0 E d1)
                    (fun m => ret (m, JStr "1.0.0"))
             else ret (d1, v1)) s1) as [[[d2 v2]|e] s2] eqn:H2; [|done].
  assert (Hd2 : dict_get "migration_history" d2
                = dict_get "migration_history" data).
  { rewrite <- Hd1. destruct (eq_str v1 "0.9.0").
    - unfold bind, ret in H2.
      destruct (DataMigration._migrate_from_0_9_0 E d1 s1)
        as [[m|e] s0] eqn:Hm; [|done].
      injection H2 as <- <- <-.
      by apply (migrate_0_9_0_other _ _ _ _ Hm).
    - unfold ret in H2. by injection H2 as <- <- <-. }
  cbn [fst snd]. unfold bind, lift.
  assert (Hh : dict_get_default "migration_history" (JList [])
                 (dict_set "schema_version"
                    (JStr DataMigration.CURRENT_VERSION) d2)
               = history_of data).
  { unfold history_of, dict_get_default.
    rewrite dict_get_set_ne by done. by rewrite Hd2. }
  rewrite Hh.
  destruct (history_of data) as [| | | |h|?]; simpl; try done.
  intros [= <- <-]. split.
  - rewrite !dict_get_set_ne by done. apply dict_get_set_eq.
  - exists h, (naive (clock E (clock_reads s2))). split; [done|].
    apply dict_get_set_eq.
Qed.

(** A loop whose body keeps a record a record runs through a list of
    records. *)
Lemma for_each_records (body : nat -> json -> M json) (l : list json) :
  (forall i x s, is_dict x ->
     exists x' s', body i x s = (Ok x', s') /\ is_dict x') ->
  Forall is_dict l ->
  forall i s, exists l' s',
    DataMigration.for_each body i l s = (Ok l', s') /\ Forall is_dict l'.
Proof.
  intros Hbody. induction 1 as [|x l Hx _ IH]; intros i s; simpl.
  - exists [], s. by split.
  - unfold bind. destruct (Hbody i x s Hx) as (x' & s1 & -> & Hx').
    destruct (IH (S i) s1) as (l' & s2 & -> & Hl').
    exists (x' :: l'), s2. split; [done|]. by constructor.
Qed.

Lemma for_records_of_records (key : string) (data : dict)
    (body : nat -> json -> M json) (s : state) :
  (forall i x s, is_dict x ->
     exists x' s', body i x s = (Ok x', s') /\ is_dict x') ->
  records_or_absent (dict_get key data) ->
  exists data' s',
    DataMigration.for_records_of key data body s = (Ok data', s') /\
    records_or_absent (dict_get key data') /\
    forall k, k <> key -> dict_get k data' = dict_get k data.
Proof.
  intros Hbody Hrec. unfold DataMigration.for_records_of.
  destruct (dict_get key data) as [v|] eqn:Hv.
  - destruct Hrec as (l & -> & Hl). simpl. unfold bind.
    destruct (for_each_records body l Hbody Hl 0%nat s) as (l' & s' & -> & Hl').
    eexists _, s'. split; [reflexivity|]. split.
    + rewrite dict_get_set_eq. by exists l'.
    + intros k Hk. by apply dict_get_set_ne.
  - exists data, s. split; [done|]. split; [by rewrite Hv|done].
Qed.

Lemma fill_record (k : string) (value : json -> M json) (x : json)
    (s : state) :
  (forall d s, exists v s', value (JDict d) s = (Ok v, s')) ->
  is_dict x ->
  exists x' s', DataMigration.fill k value x s = (Ok x', s') /\ is_dict x'.
Proof.
  intros Hvalue Hx. destruct x as [| | | | |d]; try contradiction.
  unfold DataMigration.fill, bind, lift. simpl.
  destruct (dict_has k d).
  - by exists (JDict d), s.
  - destruct (Hvalue d s) as (v & s' & ->). by eexists _, s'.
Qed.

Lemma migrate_0_8_0_returns (data : dict) (s : state) :
  migratable data ->
  exists data' s',
    DataMigration._migrate_from_0_8_0 E data s = (Ok data', s') /\
    migratable data'.
Proof.
  intros (Htx & Hcat & Hh). unfold DataMigration._migrate_from_0_8_0, bind.
  edestruct (for_records_of_records "transactions" data) as
    (d1 & s1 & -> & Htx1 & Ho1); [|exact Htx|].
  { intros i x s0 Hx.
    unfold bind.
    destruct (fill_record "created_at" (DataMigration.date_or_now E) x s0)
      as (x1 & s01 & -> & Hx1); [|done|].
    { intros d s2. by eexists _, _. }
    apply fill_record; [|done]. intros d s2. by eexists _, _. }
  edestruct (for_records_of_records "categories" d1) as
    (d2 & s2 & -> & Hcat2 & Ho2).
  3:{ exists d2, s2. split; [reflexivity|]. split; [|split; [done|]].
      - rewrite Ho2 by done. exact Htx1.
      - rewrite Ho2, Ho1 by done. exact Hh. }
  - intros i x s0 Hx. unfold bind.
    destruct (fill_record "created_at" (DataMigration.now_isoformat E) x s0)
      as (x1 & s01 & -> & Hx1); [|done|].
    { intros d s3. by eexists _, _. }
    apply fill_record; [|done]. intros d s3. by eexists _, _.
  - rewrite Ho1 by done. exact Hcat.
Qed.

Lemma py_len_records (k : string) (data : dict) :
  records_or_absent (dict_get k data) ->
  exists n, py_len (dict_get_default k (JList []) data) = Ok n.
Proof.
  unfold dict_get_default. destruct (dict_get k data) as [v|]; simpl.
  - intros (l & -> & _). by eexists.
  - by eexists.
Qed.

Lemma migrate_0_9_0_returns (data : dict) (s : state) :
  migratable data ->
  exists data' s',
    DataMigration._migrate_from_0_9_0 E data s = (Ok data', s') /\
    migratable data'.
Proof.
  intros (Htx & Hcat & Hh). unfold DataMigration._migrate_from_0_9_0.
  match goal with
  | |- context [DataMigration.for_records_of "transactions" _ ?b] =>
      set (body := b)
  end.
  assert (Hbody : forall (i : nat) (x : json) (s0 : state), is_dict x ->
    exists x' s', body i x s0 = (Ok x', s') /\ is_dict x').
  { intros i x s0 Hx. destruct x as [| | | | |d]; try contradiction.
    unfold body, bind, lift. simpl.
    destruct (truthy (dict_get_default "id" JNull d)); by eexists _, _. }
  unfold bind at 1.
  destruct (dict_has "metadata" data).
  - unfold ret at 1.
    destruct (for_records_of_records "transactions" data body s Hbody Htx)
      as (d2 & s2 & -> & Htx2 & Ho2).
    exists d2, s2. split; [reflexivity|]. split; [done|].
    rewrite !Ho2 by done. by split.
  - unfold bind, now, lift.
    destruct (py_len_records _ _ Htx) as (n1 & Hn1).
    destruct (py_len_records _ _ Hcat) as (n2 & Hn2).
    rewrite Hn1, Hn2. unfold ret at 1.
    match goal with
    | |- context [DataMigration.for_records_of _ ?d _ ?s0] =>
        destruct (for_records_of_records "transactions" d body s0 Hbody)
          as (d2 & s2 & -> & Htx2 & Ho2)
    end.
    { by rewrite dict_get_set_ne. }
    exists d2, s2. split; [reflexivity|]. split; [done|].
    rewrite !Ho2 by done. rewrite !dict_get_set_ne by done. by split.
Qed.

(** A migration of a document of the expected shape returns. *)
Lemma migrate_data_returns (data : dict) (s : state) :
  migratable data ->
  exists data' s', DataMigration.migrate_data E data s = (Ok data', s').
Proof.
  intros Hm. unfold DataMigration.migrate_data.
  destruct (eq_str (DataMigration.get_data_version data)
              DataMigration.CURRENT_VERSION); [by eexists _, _|].
  unfold bind at 1.
  set (v := DataMigration.get_data_version data).
  assert (H1 : exists d1 v1 s1,
    (if eq_str v "0.8.0"
     then bind (DataMigration._migrate_from_0_8_0 E data)
            (fun m => ret (m, JStr "0.9.0"))
     else ret (data, v)) s = (Ok (d1, v1), s1) /\ migratable d1).
  { destruct (eq_str v "0.8.0").
    - destruct (migrate_0_8_0_returns data s Hm) as (d1 & s1 & Hd1 & Hm1).
      unfold bind. rewrite Hd1. by eexists _, _, _.
    - by eexists _, _, _. }
  destruct H1 as (d1 & v1 & s1 & -> & Hm1).
  unfold bind at 1. cbn [fst snd].
  assert (H2 : exists d2 v2 s2,
    (if eq_str v1 "0.9.0"
     then bind (DataMigration._migrate_from_0_9_0 E d1)
            (fun m => ret (m, JStr "1.0.0"))
     else ret (d1, v1)) s1 = (Ok (d2, v2), s2) /\ migratable d2).
  { destruct (eq_str v1 "0.9.0").
    - destruct (migrate_0_9_0_returns d1 s1 Hm1) as (d2 & s2 & Hd2 & Hm2).
      unfold bind. rewrite Hd2. by eexists _, _, _.
    - by eexists _, _, _. }
  destruct H2 as (d2 & v2 & s2 & -> & (_ & _ & Hh)).
  cbn [fst snd]. unfold bind, lift, dict_get_default.
  rewrite dict_get_set_ne by done.
  destruct (dict_get "migration_history" d2) as [h|].
  - destruct Hh as (h' & ->). by eexists _, _.
  - by eexists _, _.
Qed.



End MigrationFacts.

(** ** Sorting *)

Section Sorting.
Context {A : Type} (key : A -> Z).

(** Largest key first. *)
Definition descending : list A -> Prop :=
  StronglySorted (fun a b => key b <= key a).

Lemma insert_desc_In (x y : A) (l : list A) :
  In y (insert_desc key x l) <-> y = x \/ In y l.
Proof.
  induction l as [|z l IH]; simpl; [intuition|].
  destruct (key x <? key z); simpl; rewrite ?IH; intuition.
Qed.

Lemma insert_desc_descending (x : A) (l : list A) :
  descending l -> descending (insert_desc key x l).
Proof.
  induction 1 as [|z l Hl IH Hz]; simpl.
  - repeat constructor.
  - destruct (key x <? key z) eqn:Hlt.
    + apply Z.ltb_lt in Hlt. constructor; [done|].
      apply Forall_forall. intros y Hy%list_elem_of_In.
      apply insert_desc_In in Hy as [->|Hy]; [lia|].
      rewrite Forall_forall in Hz. apply Hz. by apply list_elem_of_In.
    + apply Z.ltb_ge in Hlt. constructor; [by constructor|].
      constructor; [done|]. eapply Forall_impl; [exact Hz|].
      simpl. intros. lia.
Qed.

Lemma sort_desc_descending (l : list A) : descending (sort_desc key l).
Proof.
  induction l as [|x l IH]; simpl; [constructor|].
  by apply insert_desc_descending.
Qed.

Lemma insert_desc_perm (x : A) (l : list A) :
  Permutation (insert_desc key x l) (x :: l).
Proof.
  induction l as [|z l IH]; simpl; [done|].
  destruct (key x <? key z); [|done].
  rewrite IH. apply perm_swap.
Qed.

Lemma sort_desc_perm (l : list A) : Permutation (sort_desc key l) l.
Proof.
  induction l as [|x l IH]; simpl; [done|].
  by rewrite insert_desc_perm, IH.
Qed.

(** Putting [x] in front of a list whose keys are all at most its own
    is what insertion does. *)
Lemma insert_desc_head (x : A) (l : list A) :
  Forall (fun y => key y <= key x) l -> insert_desc key x l = x :: l.
Proof.
  destruct 1 as [|z l Hz _]; simpl; [done|].
  apply Z.ltb_ge in Hz. by rewrite Hz.
Qed.

(** The sort is stable, so it commutes with dropping elements. *)
Lemma insert_desc_filter (P : A -> bool) (x : A) (l : list A) :
  descending l ->
  List.filter P (insert_desc key x l)
  = if P x then insert_desc key x (List.filter P l) else List.filter P l.
Proof.
  induction 1 as [|z l Hl IH Hz]; simpl.
  - by destruct (P x).
  - destruct (key x <? key z) eqn:Hlt; simpl.
    + rewrite IH. destruct (P z), (P x); simpl; by rewrite ?Hlt.
    + destruct (P x); [|done]. symmetry. apply insert_desc_head.
      apply Z.ltb_ge in Hlt.
      assert (Hall : Forall (fun y => key y <= key x) (z :: l)).
      { constructor; [done|]. eapply Forall_impl; [exact Hz|].
        simpl. intros. lia. }
      apply Forall_forall. intros y Hy%list_elem_of_In.
      change (In y (List.filter P (z :: l))) in Hy.
      apply filter_In in Hy as [Hy _].
      rewrite Forall_forall in Hall. apply Hall. by apply list_elem_of_In.
Qed.

Lemma sort_desc_filter (P : A -> bool) (l : list A) :
  sort_desc key (List.filter P l) = List.filter P (sort_desc key l).
Proof.
  induction l as [|x l IH]; simpl; [done|].
  rewrite insert_desc_filter by apply sort_desc_descending.
  destruct (P x); simpl; by rewrite IH.
Qed.

(** In a descending list every element before position [n] has a key at
    least as large as every element from [n] on. *)
Lemma descending_split (l : list A) (n : nat) (a b : A) :
  descending l -> In a (firstn n l) -> In b (skipn n l) -> key b <= key a.
Proof.
  intros Hl. revert n. induction Hl as [|z l Hl IH Hz]; intros n.
  - destruct n; simpl; tauto.
  - destruct n as [|n]; simpl; [tauto|].
    intros [->|Ha] Hb.
    + rewrite Forall_forall in Hz. apply Hz. apply list_elem_of_In.
      rewrite <- (firstn_skipn n l). apply in_or_app. by right.
    + by apply (IH n).
Qed.

End Sorting.

(** ** Backup retention *)

Lemma filter_all_true {A} (f : A -> bool) (l : list A) :
  (forall x, In x l -> f x = true) -> List.filter f l = l.
Proof.
  induction l as [|x l IH]; simpl; intros H; [done|].
  rewrite H by auto. f_equal. apply IH. auto.
Qed.

Lemma filter_all_false {A} (f : A -> bool) (l : list A) :
  (forall x, In x l -> f x = false) -> List.filter f l = [].
Proof.
  induction l as [|x l IH]; simpl; intros H; [done|].
  rewrite H by auto. apply IH. auto.
Qed.

Lemma filter_twice {A} (f g : A -> bool) (l : list A) :
  List.filter f (List.filter g l) = List.filter (fun x => g x && f x) l.
Proof.
  induction l as [|x l IH]; simpl; [done|].
  destruct (g x); simpl; [|done]. destruct (f x); by rewrite IH.
Qed.

Section Retention.
Variable E : runtime.
Variable backup_dir : path.

#[local] Abbreviation entry_path := (BackupManager.entry_path backup_dir).
#[local] Abbreviation backup_of := (BackupManager.backup_of E backup_dir).
#[local] Abbreviation removable := (BackupManager.removable E).
#[local] Abbreviation list_backups :=
  (BackupManager.list_backups E backup_dir).
#[local] Abbreviation gone := (BackupManager.gone E backup_dir).

Lemma remove_all_spec (old : list BackupManager.backup) :
  NoDup (map BackupManager.path_ old) ->
  forall (n : Z) (entries : list BackupManager.dirent),
  (forall b, In b old ->
     exists e, In e entries /\ entry_path e = BackupManager.path_ b) ->
  BackupManager.remove_all E backup_dir old n entries
  = (n + Z.of_nat (length (List.filter removable old)),
     List.filter (fun e => negb (gone old e)) entries).
Proof.
  induction old as [|b old IH]; intros Hnd n entries Hex.
  - simpl. rewrite Z.add_0_r. by rewrite filter_all_true.
  - cbn [map] in Hnd. apply NoDup_cons in Hnd as [Hb Hnd].
    assert (Hgone : forall e,
      gone (b :: old) e
      = bool_decide (BackupManager.path_ b = entry_path e) && removable b
        || gone old e) by reflexivity.
    cbn [BackupManager.remove_all List.filter].
    unfold BackupManager.remove.
    destruct (write_fails E (BackupManager.path_ b)) eqn:Hw.
    + assert (Hr : removable b = false)
        by (unfold BackupManager.removable; by rewrite Hw).
      rewrite Hr. rewrite IH; auto.
      * f_equal. apply filter_ext. intros e.
        by rewrite Hgone, Hr, andb_false_r.
      * intros b' Hb'. apply Hex. by right.
    + assert (Hr : removable b = true)
        by (unfold BackupManager.removable; by rewrite Hw).
      rewrite Hr.
      assert (Hin : existsb
                (fun e => bool_decide (entry_path e = BackupManager.path_ b))
                entries = true).
      { destruct (Hex b) as (e & He & Hp); [by left|].
        apply existsb_exists. exists e. split; [done|].
        by apply bool_decide_eq_true. }
      rewrite Hin. rewrite IH; auto.
      * f_equal; [cbn [length]; lia|]. rewrite filter_twice.
        apply filter_ext. intros e.
        rewrite Hgone, Hr, andb_true_r, negb_orb. f_equal. f_equal.
        apply bool_decide_ext. split; congruence.
      * intros b' Hb'. destruct (Hex b') as (e & He & Hp); [by right|].
        exists e. split; [|done]. apply filter_In. split; [done|].
        apply negb_true_iff, bool_decide_eq_false. rewrite Hp.
        intros Heq. apply Hb. rewrite <- Heq.
        apply list_elem_of_In, in_map. done.
Qed.

Lemma map_filter_comm {A B} (f : A -> B) (g : B -> bool) (l : list A) :
  map f (List.filter (fun x => g (f x)) l) = List.filter g (map f l).
Proof.
  induction l as [|x l IH]; simpl; [done|].
  destruct (g (f x)); simpl; by rewrite IH.
Qed.

Lemma NoDup_map_filter {A B} (f : A -> B) (g : A -> bool) (l : list A) :
  NoDup (map f l) -> NoDup (map f (List.filter g l)).
Proof.
  induction l as [|x l IH]; simpl; [done|].
  intros [Hx Hl]%NoDup_cons. destruct (g x); simpl; [|auto].
  apply NoDup_cons. split; [|auto].
  intros Hin. apply Hx. apply list_elem_of_In in Hin.
  apply in_map_iff in Hin as (y & Hy & Hin).
  apply filter_In in Hin as [Hin _].
  apply list_elem_of_In, in_map_iff. eauto.
Qed.

(** The files the listing shows, before (to keep) and from (old)
    position [k] on, have pairwise different paths. *)
Lemma backups_paths_NoDup (entries : list BackupManager.dirent) :
  NoDup (map BackupManager.d_name entries) ->
  NoDup (map BackupManager.path_ (list_backups (Some entries))).
Proof.
  intros Hnd. unfold BackupManager.list_backups.
  rewrite (sort_desc_perm BackupManager.created_key).
  rewrite map_map. simpl.
  change (fun x => entry_path x)
    with (fun x => (fun n => backup_dir ++ [n]) (BackupManager.d_name x)).
  rewrite <- (map_map BackupManager.d_name (fun n => backup_dir ++ [n])).
  apply (NoDup_fmap_2 (fun n => backup_dir ++ [n])).
  by apply NoDup_map_filter.
Qed.

Lemma backups_have_entries (entries : list BackupManager.dirent)
    (b : BackupManager.backup) :
  In b (list_backups (Some entries)) ->
  exists e, In e entries /\ entry_path e = BackupManager.path_ b.
Proof.
  unfold BackupManager.list_backups. intros Hb.
  apply list_elem_of_In in Hb.
  rewrite (sort_desc_perm BackupManager.created_key) in Hb.
  apply list_elem_of_In, in_map_iff in Hb as (e & <- & He).
  apply filter_In in He as [He _]. by exists e.
Qed.

(** The backups that are left after the loop: the ones it kept and the
    old ones it could not remove, in listing order. *)
Lemma list_backups_after (entries : list BackupManager.dirent) (k : nat) :
  NoDup (map BackupManager.d_name entries) ->
  let backups := list_backups (Some entries) in
  list_backups
    (Some (List.filter (fun e => negb (gone (skipn k backups) e)) entries))
  = firstn k backups
    ++ List.filter (fun b => negb (removable b)) (skipn k backups).
Proof.
  intros Hnd backups.
  pose proof (backups_paths_NoDup entries Hnd) as Hpaths.
  fold backups in Hpaths.
  set (old := skipn k backups).
  set (g := fun b : BackupManager.backup =>
              negb (existsb (fun b0 => bool_decide (BackupManager.path_ b0
                                                    = BackupManager.path_ b)
                                       && removable b0) old)).
  assert (Hlist :
    list_backups (Some (List.filter (fun e => negb (gone old e)) entries))
    = List.filter g backups).
  { unfold backups, BackupManager.list_backups.
    rewrite <- sort_desc_filter. f_equal.
    rewrite <- map_filter_comm. f_equal.
    rewrite !filter_twice. apply filter_ext. intros e. apply andb_comm. }
  rewrite Hlist. rewrite <- (firstn_skipn k backups) at 1.
  rewrite List.filter_app. fold old. f_equal.
  - apply filter_all_true. intros b Hb. unfold g.
    apply negb_true_iff. apply not_true_iff_false. intros Hex.
    apply existsb_exists in Hex as (b0 & Hb0 & Hand).
    apply andb_prop in Hand as [Heq _]. apply bool_decide_eq_true in Heq.
    rewrite <- (firstn_skipn k backups), map_app in Hpaths.
    apply NoDup_app in Hpaths as (_ & Hdisj & _).
    apply (Hdisj (BackupManager.path_ b)).
    + apply list_elem_of_In, in_map. done.
    + rewrite <- Heq. apply list_elem_of_In, in_map. done.
  - apply filter_ext_in. intros b Hb. unfold g. f_equal.
    destruct (removable b) eqn:Hr.
    + apply existsb_exists. exists b. split; [done|].
      rewrite Hr, andb_true_r. by apply bool_decide_eq_true.
    + apply not_true_iff_false. intros Hex.
      apply existsb_exists in Hex as (b0 & Hb0 & Hand).
      apply andb_prop in Hand as [Heq Hr0].
      apply bool_decide_eq_true in Heq.
      unfold BackupManager.removable in Hr, Hr0. rewrite Heq in Hr0.
      congruence.
Qed.


End Retention.

(** ** Writing the store file *)

Lemma with_suffix_returns (p : path) (suffix : string) :
  valid_suffix suffix = true ->
  path_name p <> "" ->
  exists name, with_suffix p suffix = Ok (path_parent p ++ [name]).
Proof.
  unfold with_suffix. intros Hsuffix Hname. rewrite Hsuffix. cbn [negb].
  destruct (list_ascii_of_string (path_name p)) as [|c l] eqn:Hl.
  - exfalso. apply Hname.
    rewrite <- (String.string_of_list_ascii_of_string (path_name p)).
    by rewrite Hl.
  - by eexists.
Qed.

Lemma path_parent_name (p : path) :
  p <> [] -> p = path_parent p ++ [path_name p].
Proof. intros Hp. by apply app_removelast_last. Qed.

Section SaveData.
Variable E : runtime.
Variable data_file_path : path.

(** With a dict for metadata and a store path that has a name,
    [_save_data] returns; it touches the temporary file and the store
    file only, and writes [last_modified] into the document. *)
Lemma save_data_returns (s : state) (d md : dict) (temp_file : path) :
  _data s = JDict d ->
  dict_get "metadata" d = Some (JDict md) ->
  with_suffix data_file_path ".tmp" = Ok temp_file ->
  exists b s',
    JSONRepository._save_data E data_file_path s = (Ok b, s') /\
    (forall q, q <> temp_file -> q <> data_file_path ->
               files s' !! q = files s !! q) /\
    _data s'
    = JDict (dict_set "metadata"
               (JDict (dict_set "last_modified"
                         (JStr (isoformat (naive (clock E (clock_reads s)))))
                         md)) d).
Proof.
  intros Hd Hmd Htmp.
  unfold JSONRepository._save_data, JSONRepository.stamp_last_modified.
  unfold try_except, bind, now, get_data, lift, put_data. simpl.
  rewrite Hd. simpl. unfold dict_getitem. rewrite Hmd. simpl.
  unfold mkdir. destruct (write_fails E (path_parent data_file_path)).
  { simpl. unfold ret. by eexists _, _. }
  rewrite Htmp. unfold write_json. simpl.
  destruct (write_fails E temp_file).
  { simpl. unfold ret. by eexists _, _. }
  unfold replace. simpl. rewrite lookup_insert_eq.
  destruct (write_fails E data_file_path); simpl; unfold ret.
  - eexists _, _. split; [reflexivity|]. split; [|done].
    intros q Hq _. simpl. by rewrite lookup_insert_ne.
  - eexists _, _. split; [reflexivity|]. split; [|done].
    intros q Hq1 Hq2. simpl. rewrite lookup_insert_ne by done.
    rewrite lookup_delete_ne by done. by rewrite lookup_insert_ne.
Qed.


End SaveData.

(** ** The save, step by step *)

Lemma string_app_cons (a : ascii) (s t : string) :
  String a s +:+ t = String a (s +:+ t).
Proof. reflexivity. Qed.

Lemma string_app_assoc (s1 s2 s3 : string) :
  (s1 +:+ s2) +:+ s3 = s1 +:+ (s2 +:+ s3).
Proof.
  induction s1 as [|a s1 IH]; [done|].
  by rewrite !string_app_cons, IH.
Qed.

Section Steps.
Variable E : runtime.
Variable data_file_path : path.

#[local] Abbreviation step := (JSONRepository.step E data_file_path).
#[local] Abbreviation run := (JSONRepository.run E data_file_path).
#[local] Abbreviation _save_data := (JSONRepository._save_data E data_file_path).

Lemma run_S (n : nat) (pt : JSONRepository.point) (s : state) :
  run (S n) pt s
  = match step pt s with
    | None => ([], pt, s)
    | Some (a, pt', s') =>
        let '(acts, pt'', s'') := run n pt' s' in (a :: acts, pt'', s'')
    end.
Proof. reflexivity. Qed.

Lemma run_app (n m : nat) (pt : JSONRepository.point) (s : state) :
  run (n + m) pt s
  = let '(acts1, pt1, s1) := run n pt s in
    let '(acts2, pt2, s2) := run m pt1 s1 in
    (acts1 ++ acts2, pt2, s2).
Proof.
  revert pt s. induction n as [|n IH]; intros pt s; simpl.
  - by destruct (run m pt s) as [[? ?] ?].
  - destruct (step pt s) as [[[a pt'] s']|] eqn:Hstep.
    + rewrite IH. destruct (run n pt' s') as [[acts1 pt1] s1].
      by destruct (run m pt1 s1) as [[? ?] ?].
    + destruct m; simpl; [done|]. by rewrite Hstep.
Qed.

(** Writing the chunks one by one gives the file the text written so
    far followed by all of them. *)
Lemma run_writing (chunks : list string) (temp_file : path) (s : state)
    (written : string) :
  files s !! temp_file = Some written ->
  exists acts,
    run (S (length chunks)) (JSONRepository.Writing temp_file chunks) s
    = (acts, JSONRepository.Written temp_file,
       set_files (<[temp_file := written +:+ fold_right String.append "" chunks]>
                    (files s)) s) /\
    Forall (fun a => a = JSONRepository.Write \/ a = JSONRepository.Close) acts.
Proof.
  revert s written. induction chunks as [|c chunks IH]; intros s written Hw.
  - exists [JSONRepository.Close]. split.
    + simpl. do 2 f_equal. destruct s; unfold set_files; simpl in *.
      f_equal. rewrite insert_id; [done|].
      rewrite Hw. f_equal. clear. induction written; [done|].
      by rewrite string_app_cons, <- IHwritten.
    + constructor; [by right|constructor].
  - cbn [length]. rewrite run_S.
    change (step (JSONRepository.Writing temp_file (c :: chunks)) s)
      with (Some (JSONRepository.Write,
                  JSONRepository.Writing temp_file chunks,
                  JSONRepository.append_file temp_file c s)).
    cbv iota beta.
    edestruct (IH (JSONRepository.append_file temp_file c s) (written +:+ c))
      as (acts & Hrun & Hacts).
    { unfold JSONRepository.append_file. simpl.
      rewrite lookup_insert_eq. by rewrite Hw. }
    rewrite Hrun. eexists. split.
    + f_equal. unfold JSONRepository.append_file, set_files. simpl.
      f_equal. rewrite Hw. simpl.
      rewrite (insert_insert_eq (files s)). by rewrite string_app_assoc.
    + constructor; [by left|done].
Qed.

(** The machine run to its end is [_save_data]: same result, same
    state. *)
Lemma run_save_data (s : state) :
  exists n acts,
    run n JSONRepository.Start s
    = (acts, JSONRepository.Returned (fst (_save_data s)), snd (_save_data s)).
Proof.
  unfold JSONRepository._save_data, try_except, bind.
  destruct (JSONRepository.stamp_last_modified E s) as [[[]|e] s1] eqn:Hst.
  2:{ exists 1%nat, [JSONRepository.Fail]. rewrite run_S.
      cbn [JSONRepository.step]. rewrite Hst. simpl.
      unfold JSONRepository.on_exception. by destruct (is_OSError e). }
  unfold mkdir.
  destruct (write_fails E (path_parent data_file_path)) eqn:Hdir.
  { exists 2%nat, [JSONRepository.Stamp; JSONRepository.Fail].
    rewrite run_S. cbn [JSONRepository.step]. rewrite Hst.
    rewrite run_S. cbn [JSONRepository.step]. unfold mkdir. by rewrite Hdir. }
  unfold lift.
  destruct (with_suffix data_file_path ".tmp") as [tmp|e] eqn:Htmp.
  2:{ exists 3%nat,
        [JSONRepository.Stamp; JSONRepository.Mkdir; JSONRepository.Fail].
      rewrite run_S. cbn [JSONRepository.step]. rewrite Hst.
      rewrite run_S. cbn [JSONRepository.step]. unfold mkdir. rewrite Hdir.
      rewrite run_S. cbn [JSONRepository.step]. rewrite Htmp. simpl.
      unfold JSONRepository.on_exception. by destruct (is_OSError e). }
  unfold get_data, write_json.
  destruct (write_fails E tmp) eqn:Hw.
  { exists 3%nat,
      [JSONRepository.Stamp; JSONRepository.Mkdir; JSONRepository.Fail].
    rewrite run_S. cbn [JSONRepository.step]. rewrite Hst.
    rewrite run_S. cbn [JSONRepository.step]. unfold mkdir. rewrite Hdir.
    rewrite run_S. cbn [JSONRepository.step]. by rewrite Htmp, Hw. }
  set (chunks := iterencode E (_data s1)).
  set (s2 := set_files (<[tmp := ""]> (files s1)) s1).
  destruct (run_writing chunks tmp s2 "") as (acts & Hrun & _).
  { unfold s2. simpl. apply lookup_insert_eq. }
  assert (Hs3 :
    set_files (<[tmp := "" +:+ fold_right String.append "" chunks]> (files s2)) s2
    = set_files (<[tmp := dumps E (_data s1)]> (files s1)) s1).
  { unfold s2, set_files, dumps. simpl. f_equal.
    by rewrite (insert_insert_eq (files s1)). }
  rewrite Hs3 in Hrun.
  set (s3 := set_files (<[tmp := dumps E (_data s1)]> (files s1)) s1) in *.
  assert (Hprefix : forall acts' pt' s',
    run 1 (JSONRepository.Written tmp) s3 = (acts', pt', s') ->
    run (3 + (S (length chunks) + 1)) JSONRepository.Start s
    = ([JSONRepository.Stamp; JSONRepository.Mkdir; JSONRepository.Open]
       ++ acts ++ acts', pt', s')).
  { intros acts' pt' s' Hlast.
    rewrite (run_app 3). rewrite run_S. cbn [JSONRepository.step]. rewrite Hst.
    rewrite run_S. cbn [JSONRepository.step]. unfold mkdir. rewrite Hdir.
    rewrite run_S. cbn [JSONRepository.step]. rewrite Htmp, Hw.
    cbn [JSONRepository.run]. fold chunks. fold s2.
    rewrite (run_app (S (length chunks)) 1). rewrite Hrun. by rewrite Hlast. }
  exists (3 + (S (length chunks) + 1))%nat.
  destruct (replace E tmp data_file_path s3) as [[[]|e] s4] eqn:Hrep.
  - eexists. apply Hprefix. rewrite run_S. cbn [JSONRepository.step].
    by rewrite Hrep.
  - eexists. simpl fst. simpl snd. erewrite Hprefix.
    2:{ rewrite run_S. cbn [JSONRepository.step]. rewrite Hrep.
        reflexivity. }
    unfold JSONRepository.on_exception. by destruct (is_OSError e).
Qed.

(** One step, taken at a point that uses the temporary file
    [temp_file], leaves the store file alone unless it is the rename. *)
Lemma step_store (temp_file : path) (pt pt' : JSONRepository.point)
    (a : JSONRepository.action) (s s' : state) :
  with_suffix data_file_path ".tmp" = Ok temp_file ->
  temp_file <> data_file_path ->
  JSONRepository.point_uses temp_file pt ->
  step pt s = Some (a, pt', s') ->
  JSONRepository.point_uses temp_file pt' /\
  (a <> JSONRepository.Rename ->
   files s' !! data_file_path = files s !! data_file_path).
Proof.
  intros Htmp Hne Hpt Hstep.
  destruct pt as [| | |t pending|t|r]; cbn [JSONRepository.step] in Hstep.
  - destruct (JSONRepository.stamp_last_modified E s) as [[[]|e] s1] eqn:Hst;
      apply stamp_preserves in Hst as [Hf _];
      injection Hstep as <- <- <-; (split; [|by rewrite Hf]).
    + exact I.
    + unfold JSONRepository.on_exception. by destruct (is_OSError e).
  - unfold mkdir in Hstep.
    destruct (write_fails E (path_parent data_file_path));
      injection Hstep as <- <- <-; by split.
  - rewrite Htmp in Hstep. destruct (write_fails E temp_file);
      injection Hstep as <- <- <-; split; try done.
    intros _. simpl. by rewrite lookup_insert_ne.
  - simpl in Hpt. subst t. destruct pending as [|c pending];
      injection Hstep as <- <- <-; split; try done.
    intros _. unfold JSONRepository.append_file. simpl.
    by rewrite lookup_insert_ne.
  - unfold replace in Hstep. destruct (files s !! t) as [c|].
    + destruct (write_fails E data_file_path);
        injection Hstep as <- <- <-; split; done.
    + injection Hstep as <- <- <-. split; done.
  - discriminate.
Qed.

(** A save interrupted after any number of steps, none of them the
    rename, has left the store file as it was: atomicity, for a store
    path that the temporary path differs from. *)
Lemma save_data_atomic (temp_file : path) (n : nat) (s s' : state)
    (acts : list JSONRepository.action) (pt : JSONRepository.point) :
  with_suffix data_file_path ".tmp" = Ok temp_file ->
  temp_file <> data_file_path ->
  run n JSONRepository.Start s = (acts, pt, s') ->
  ~ In JSONRepository.Rename acts ->
  files s' !! data_file_path = files s !! data_file_path.
Proof.
  intros Htmp Hne.
  assert (Hgen : forall n pt0 s0 acts pt s',
    JSONRepository.point_uses temp_file pt0 ->
    run n pt0 s0 = (acts, pt, s') ->
    ~ In JSONRepository.Rename acts ->
    files s' !! data_file_path = files s0 !! data_file_path).
  { clear n s s' acts pt. induction n as [|n IH];
      intros pt0 s0 acts pt s' Hpt Hrun Hacts.
    - simpl in Hrun. by injection Hrun as <- <- <-.
    - rewrite run_S in Hrun.
      destruct (step pt0 s0) as [[[a pt1] s1]|] eqn:Hstep.
      + destruct (run n pt1 s1) as [[acts1 pt2] s2] eqn:Hrun1.
        injection Hrun as <- <- <-.
        destruct (step_store temp_file _ _ _ _ _ Htmp Hne Hpt Hstep)
          as [Hpt1 Hf].
        rewrite (IH _ _ _ _ _ Hpt1 Hrun1).
        * apply Hf. intros ->. apply Hacts. by left.
        * intros Hin. apply Hacts. by right.
      + by injection Hrun as <- <- <-. }
  intros Hrun Hacts. by apply (Hgen n JSONRepository.Start s acts pt s').
Qed.

End Steps.

(** ** Numbers as text *)

Lemma digits_fuel_cons (fuel : nat) (n : N) (acc : list ascii) :
  exists c r, digits_fuel (S fuel) n acc = c :: r.
Proof.
  revert n acc. induction fuel as [|fuel IH]; intros n acc.
  - simpl. destruct (n / 10 =? 0)%N; by eexists _, _.
  - cbn [digits_fuel]. destruct (n / 10 =? 0)%N; [by eexists _, _|].
    apply IH.
Qed.

Lemma digits_of_N_cons (n : N) : exists c r, digits_of_N n = c :: r.
Proof. apply digits_fuel_cons. Qed.

(** ** A transaction written and read back *)

Lemma zfill_cons (w : nat) (n : N) : exists c r, zfill w n = c :: r.
Proof.
  destruct (digits_of_N_cons n) as (c0 & r0 & Hn). unfold zfill. rewrite Hn.
  destruct (repeat "0"%char (w - length (c0 :: r0))) as [|c r];
    by eexists _, _.
Qed.

Lemma isoformat_truthy (d : datetime) : truthy (JStr (isoformat d)) = true.
Proof.
  unfold isoformat. destruct (zfill_cons 4 (dt_year d)) as (c & r & ->).
  reflexivity.
Qed.

Lemma uuid_str_nonempty (i : N) : uuid_str i <> "".
Proof.
  unfold uuid_str. by destruct (firstn 8 (hex_fixed 32 i)).
Qed.

Lemma of_value_value (ty : TransactionType.t) :
  TransactionType.of_value (JStr (TransactionType.value ty)) = Ok ty.
Proof. by destruct ty. Qed.

Section RoundTrip.
Variable E : runtime.

(** [from_dict] reads a datetime back from the text [to_dict] wrote for
    it, when the library does. *)
Lemma optional_datetime_isoformat (k : string) (d : datetime) (data : dict) :
  dict_get k data = Some (JStr (isoformat d)) ->
  fromisoformat E (JStr (isoformat d)) = Ok d ->
  Transaction.optional_datetime E k data = Ok (Some d).
Proof.
  intros Hk Hd. unfold Transaction.optional_datetime.
  unfold dict_get_none, dict_get_default, dict_getitem. rewrite Hk.
  rewrite isoformat_truthy. cbn [res_bind]. by rewrite Hd.
Qed.

Lemma from_dict_to_dict (t : Transaction.t) (record : dict) (s : state) :
  Transaction.is_valid t = Ok true ->
  filled t ->
  reads_back E t ->
  Transaction.to_dict t = Ok record ->
  Transaction.from_dict E record s = (Ok t, s).
Proof.
  intros Hv (Hid & (dt & Hdate) & (cr & Hcreated)) (Ha & Hd & Hc).
  apply valid_fields in Hv
    as ((a & Hamount & _) & (d & Hdesc & _) & (c & Hcat & _) & (ty & Hty) & _).
  specialize (Ha a Hamount). specialize (Hd dt Hdate).
  specialize (Hc cr Hcreated).
  unfold Transaction.to_dict. rewrite Hamount, Hdate, Hty, Hcreated.
  cbn [Transaction.isoformat_or_none res_bind]. intros [= <-].
  unfold Transaction.from_dict, Transaction.from_dict_args, bind, lift.
  rewrite (optional_datetime_isoformat "date" dt) by done.
  rewrite (optional_datetime_isoformat "created_at" cr) by done.
  unfold dict_getitem, dict_get_none, dict_get_default.
  cbn [dict_get String.eqb Ascii.eqb Bool.eqb res_bind].
  rewrite Ha. cbn [res_bind]. rewrite of_value_value. cbn [res_bind].
  cbn [Transaction.arg_id Transaction.arg_amount Transaction.arg_description
       Transaction.arg_category Transaction.arg_date
       Transaction.arg_transaction_type Transaction.arg_created_at
       Transaction.optional].
  unfold Transaction.init, bind, ret.
  destruct t as [amount description category type date id created].
  cbn [Transaction.amount Transaction.description Transaction.category
       Transaction.transaction_type Transaction.date Transaction.id
       Transaction.created_at] in *.
  subst. by destruct id.
Qed.


End RoundTrip.

(** * The properties on sample values *)

(** ** Deleting a category *)

(** C1: the failing input.  The store [in_use_store] was built by three
    saves that each returned [True]; it holds the category "Custom", not
    a default, and a transaction that references it.  The dates of the
    two stored transactions do not compare, so [get_all_transactions]
    returns the empty list, the in-use check of the service answers
    [False], and [CategoryService.delete_category] removes "Custom" and
    returns [True]. *)
Theorem service_deletes_category_in_use :
  fst (JSONRepository.save_category E0 store0 custom
         (state_of (document [] []) ∅)) = Ok true /\
  fst (JSONRepository.save_transaction E0 store0
         (coffee_at "t1" "Custom" (Is noon)) in_use_1) = Ok true /\
  fst (JSONRepository.save_transaction E0 store0
         (coffee_at "t2" "Food" (Is noon_utc)) in_use_2) = Ok true /\
  stored "categories" in_use_store
  = Some [JDict (category_record "Custom" false)] /\
  stored "transactions" in_use_store
  = Some [JDict (coffee_record_at "t1" "Custom" noon);
          JDict (coffee_record_at "t2" "Food" noon_utc)] /\
  dict_get "category" (coffee_record_at "t1" "Custom" noon)
  = Some (JStr "Custom") /\
  fst (JSONRepository.get_all_transactions E0 in_use_store) = Ok [] /\
  fst (CategoryService.delete_category E0 store0 "Custom" in_use_store)
  = Ok true /\
  stored "categories"
    (snd (CategoryService.delete_category E0 store0 "Custom" in_use_store))
  = Some [].
Proof. vm_compute. repeat split. Qed.

(** The repository by itself does not look at the transactions either:
    [JSONRepository.delete_category] removes a category that a stored
    transaction references. *)
Lemma repository_delete_category_ignores_use :
  let s := state_of (document [JDict (coffee_record "Custom")]
                       [JDict (category_record "Custom" false)]) ∅ in
  stored "transactions" s = Some [JDict (coffee_record "Custom")] /\
  dict_get "category" (coffee_record "Custom") = Some (JStr "Custom") /\
  fst (JSONRepository.delete_category E0 store0 "Custom" s) = Ok true /\
  stored "categories"
    (snd (JSONRepository.delete_category E0 store0 "Custom" s)) = Some [].
Proof. vm_compute. repeat split. Qed.

Lemma delete_default_category_refused_witness :
  JSONRepository.delete_category E0 store0 "Food"
    (state_of (document [] [JDict (category_record "Food" true)]) ∅)
  = (Ok false,
     state_of (document [] [JDict (category_record "Food" true)]) ∅).
Proof.
  apply (delete_default_category_refused E0 store0 _
           [JDict (category_record "Food" true)]
           (category_record "Food" true) "Food").
  - reflexivity.
  - left. reflexivity.
  - reflexivity.
  - reflexivity.
Defined.

(** ** Saving a transaction *)



(** ** Identifiers *)


(** ** Migration *)



(** ** A transaction written and read back *)



(** ** Backups *)


(** ** Loading a corrupted store *)



(** ** Saving to a store whose name ends in [.tmp] *)


